(** * goxel / cycles.cpp: the bridge between the voxel editor and the
      progressive path tracer.

    The development embeds [src/cycles.cpp] shallowly:
    - the tessellated block mesh built by [create_mesh_for_block];
    - the scene assembled by [create_scene] (camera matrix, shaders,
      per-block objects, light);
    - the device selection of [cycles_init];
    - the render key of [get_render_key];
    - the per-frame controller [cycles_render], as a program of a small
      state-and-fault monad over the file's globals, with a trace of the
      calls made to the rendering engine and to the display.

    Integers of the C code are [Z]; the [uint64_t] key wraps at [2^64].
    The editor's helpers that the file calls but does not define (vector
    maths, volume iteration and tessellation, the checksum) are interfaces
    (type classes); the theorems hold for every implementation of them. *)

From Stdlib Require Import ZArith List Lia String QArith Qround.
From Stdlib Require Import Strings.Byte.
From stdpp Require Import base list strings.

Open Scope Z_scope.

(** ** Faults and results *)

(** What a C run can do besides returning: dereference a null pointer or
    index outside an array. *)
Inductive fault : Type :=
| NullDeref
| OutOfBounds.

Inductive result (A : Type) : Type :=
| Ok (a : A)
| Fault (f : fault).
Arguments Ok {A} a.
Arguments Fault {A} f.

#[global] Instance result_ret : MRet result := @Ok.
#[global] Instance result_bind : MBind result := fun A B k r =>
  match r with
  | Ok a => k a
  | Fault f => Fault f
  end.

(** [for (i = start; i < start + n; i++) body], threading the mutated
    object. *)
Fixpoint for_loop {S : Type} (n : nat) (i : Z)
    (body : Z -> S -> result S) (s : S) : result S :=
  match n with
  | O => Ok s
  | Datatypes.S n' => body i s ≫= for_loop n' (i + 1) body
  end.

(** [a[k]] for a C index [k]. *)
Definition array_get {A : Type} (a : list A) (k : Z) : result A :=
  if k <? 0 then Fault OutOfBounds
  else match a !! Z.to_nat k with
       | Some x => Ok x
       | None => Fault OutOfBounds
       end.

(** [a[k] = x] for a C index [k]. *)
Definition array_set {A : Type} (a : list A) (k : Z) (x : A) : result (list A) :=
  if k <? 0 then Fault OutOfBounds
  else if k <? Z.of_nat (length a) then Ok (<[Z.to_nat k := x]> a)
  else Fault OutOfBounds.

(** ** Floats *)

(** The C [float]s are kept abstract: the file copies them, negates them,
    multiplies one by [-1], converts integers to them and looks at their
    bytes. *)
Class FloatOps (F : Type) : Type := {
  f_of_int : Z -> F;            (* (float)n *)
  f_lit : Q -> F;               (* a decimal literal *)
  f_neg : F -> F;               (* -x *)
  f_mul : F -> F -> F;          (* x * y *)
  float_bytes : F -> list byte  (* object representation *)
}.

(** ** The rendering engine's mesh (ccl::Mesh) *)

Module Ccl.

Inductive SubdivisionType := SUBDIVISION_NONE | SUBDIVISION_LINEAR
                           | SUBDIVISION_CATMULL_CLARK.

Inductive AttributeElement := ATTR_ELEMENT_CORNER_BYTE | ATTR_ELEMENT_OTHER.

Inductive TypeDesc := TypeColor | TypeOther.

Definition uchar4 : Type := (byte * byte * byte * byte)%type.
Definition make_uchar4 (x y z w : byte) : uchar4 := (x, y, z, w).

Record Triangle := {
  v0 : Z; v1 : Z; v2 : Z;
  tri_shader : Z;
  tri_smooth : bool
}.

Record Attribute := {
  attr_name : string;
  attr_type : TypeDesc;
  attr_element : AttributeElement;
  attr_data : list uchar4
}.

Section WithFloat.
Context {F : Type}.

Definition float3 : Type := (F * F * F)%type.
Definition make_float3 (x y z : F) : float3 := (x, y, z).

Record Mesh := {
  subdivision_type : SubdivisionType;
  reserved_verts : Z;
  reserved_tris : Z;
  verts : list float3;
  triangles : list Triangle;
  attributes : list Attribute;
  used_shaders : list string
}.

(** [new ccl::Mesh()] *)
Definition Mesh_new : Mesh :=
  {| subdivision_type := SUBDIVISION_NONE;
     reserved_verts := 0; reserved_tris := 0;
     verts := []; triangles := []; attributes := [];
     used_shaders := [] |}.

Definition set_subdivision_type (m : Mesh) (t : SubdivisionType) : Mesh :=
  {| subdivision_type := t;
     reserved_verts := reserved_verts m; reserved_tris := reserved_tris m;
     verts := verts m; triangles := triangles m;
     attributes := attributes m; used_shaders := used_shaders m |}.

(** [reserve_mesh(numverts, numtris)]: the request is recorded.  The code
    asks for [4 * nb] and [2 * nb] with [nb > 0] quads. *)
Definition reserve_mesh (m : Mesh) (numverts numtris : Z) : Mesh :=
  {| subdivision_type := subdivision_type m;
     reserved_verts := numverts; reserved_tris := numtris;
     verts := verts m; triangles := triangles m;
     attributes := attributes m; used_shaders := used_shaders m |}.

Definition add_vertex (m : Mesh) (P : float3) : Mesh :=
  {| subdivision_type := subdivision_type m;
     reserved_verts := reserved_verts m; reserved_tris := reserved_tris m;
     verts := verts m ++ [P]; triangles := triangles m;
     attributes := attributes m; used_shaders := used_shaders m |}.

Definition add_triangle (m : Mesh) (a b c shader : Z) (smooth : bool) : Mesh :=
  {| subdivision_type := subdivision_type m;
     reserved_verts := reserved_verts m; reserved_tris := reserved_tris m;
     verts := verts m;
     triangles := triangles m ++
       [{| v0 := a; v1 := b; v2 := c;
           tri_shader := shader; tri_smooth := smooth |}];
     attributes := attributes m; used_shaders := used_shaders m |}.

Definition set_attributes (m : Mesh) (l : list Attribute) : Mesh :=
  {| subdivision_type := subdivision_type m;
     reserved_verts := reserved_verts m; reserved_tris := reserved_tris m;
     verts := verts m; triangles := triangles m;
     attributes := l; used_shaders := used_shaders m |}.

Definition push_used_shader (m : Mesh) (s : string) : Mesh :=
  {| subdivision_type := subdivision_type m;
     reserved_verts := reserved_verts m; reserved_tris := reserved_tris m;
     verts := verts m; triangles := triangles m;
     attributes := attributes m; used_shaders := used_shaders m ++ [s] |}.

(** Number of elements of an attribute of the given kind on [m]: a
    corner attribute has one element per triangle corner. *)
Definition element_count (m : Mesh) (e : AttributeElement) : nat :=
  match e with
  | ATTR_ELEMENT_CORNER_BYTE => 3 * length (triangles m)
  | ATTR_ELEMENT_OTHER => 0
  end%nat.

Definition zero_uchar4 : uchar4 := (x00, x00, x00, x00)%byte.

(** [mesh->attributes.add(name, type, element)]: the attribute is
    appended to the mesh, sized for the mesh as it is now; the handle
    returned points into the mesh (here: its position). *)
Definition attributes_add (m : Mesh) (name : string) (t : TypeDesc)
    (e : AttributeElement) : Mesh * nat :=
  (set_attributes m
     (attributes m ++
      [{| attr_name := name; attr_type := t; attr_element := e;
          attr_data := replicate (element_count m e) zero_uchar4 |}]),
   length (attributes m)).

(** [attr->data_uchar4()[i] = c], through the handle. *)
Definition attr_store (m : Mesh) (attr : nat) (i : Z) (c : uchar4)
    : result Mesh :=
  match attributes m !! attr with
  | None => Fault NullDeref
  | Some a =>
      d ← array_set (attr_data a) i c;
      Ok (set_attributes m
            (<[attr := {| attr_name := attr_name a;
                          attr_type := attr_type a;
                          attr_element := attr_element a;
                          attr_data := d |}]> (attributes m)))
  end.

End WithFloat.
Arguments Mesh F : clear implicits.
Arguments float3 F : clear implicits.

End Ccl.

(** ** The voxel volume, as this file consumes it *)

(** Modelled from the spec: the declaration of [voxel_vertex_t] is in the
    editor's header, which this file includes; section 3 gives a voxel
    vertex a position of three floats and a colour of four bytes (RGBA).
    The code reads [pos[0..2]] and [color[0..3]]. *)
Record voxel_vertex_t (F : Type) := {
  pos : F * F * F;
  color : byte * byte * byte * byte
}.
Arguments pos {F} v.
Arguments color {F} v.

Definition block_pos_t : Type := (Z * Z * Z)%type.

(** The editor's volume API used by this file, with the constants of its
    header.  [mesh_generate_vertices mesh block_pos effects out] fills the
    caller's buffer [out] and returns the number of quads with the buffer;
    [mesh_iter_blocks mesh flags] is the sequence of block positions that
    [mesh_get_iterator] and [mesh_iter] yield; [mesh_get_key] is the
    content hash. *)
Class VolumeOps (F mesh_t : Type) : Type := {
  BLOCK_SIZE : Z;
  MESH_ITER_BLOCKS : Z;
  MESH_ITER_INCLUDES_NEIGHBORS : Z;
  mesh_generate_vertices :
    mesh_t -> block_pos_t -> Z -> list (voxel_vertex_t F)
    -> Z * list (voxel_vertex_t F);
  mesh_iter_blocks : mesh_t -> Z -> list block_pos_t;
  mesh_get_key : mesh_t -> Z
}.

Section Tessellation.
Context {F mesh_t : Type} `{FloatOps F} `{VolumeOps F mesh_t}.

(** An element of a [calloc]ed vertex array. *)
Definition zero_vertex : voxel_vertex_t F :=
  {| pos := (f_of_int 0, f_of_int 0, f_of_int 0);
     color := (x00, x00, x00, x00)%byte |}.

Definition vertices_capacity : Z :=
  BLOCK_SIZE * BLOCK_SIZE * BLOCK_SIZE * 6 * 4.

Definition calloc_vertices : list (voxel_vertex_t F) :=
  replicate (Z.to_nat vertices_capacity) zero_vertex.

(** Body of the inner loop over the four corners of quad [i]. *)
Definition add_corner (vertices : list (voxel_vertex_t F)) (i j : Z)
    (ret : Ccl.Mesh F) : result (Ccl.Mesh F) :=
  v ← array_get vertices (i * 4 + j);
  Ok (Ccl.add_vertex ret
        (Ccl.make_float3 (pos v).1.1 (pos v).1.2 (pos v).2)).

(** Body of the loop that runs once per quad. *)
Definition add_quad (vertices : list (voxel_vertex_t F)) (i : Z)
    (ret : Ccl.Mesh F) : result (Ccl.Mesh F) :=
  ret ← for_loop 4 0 (add_corner vertices i) ret;
  let ret := Ccl.add_triangle ret (i * 4 + 0) (i * 4 + 1) (i * 4 + 2) 0 false in
  Ok (Ccl.add_triangle ret (i * 4 + 2) (i * 4 + 3) (i * 4 + 0) 0 false).

(** Body of the colour loop. *)
Definition set_corner_color (vertices : list (voxel_vertex_t F))
    (attr : nat) (i : Z) (ret : Ccl.Mesh F) : result (Ccl.Mesh F) :=
  v ← array_get vertices (Z.quot i 6 * 4);
  Ccl.attr_store ret attr i
    (Ccl.make_uchar4 (color v).1.1.1 (color v).1.1.2 (color v).1.2 (color v).2).

(** The [int]s [nb], [i], [j] and the indices computed from them stay
    below six times the capacity of the buffer; they are [Z] here. *)
Definition create_mesh_for_block (mesh : mesh_t) (block_pos : block_pos_t)
    : result (Ccl.Mesh F) :=
  let ret := Ccl.Mesh_new in
  let ret := Ccl.set_subdivision_type ret Ccl.SUBDIVISION_NONE in
  let vertices := calloc_vertices in
  let '(nb, vertices) := mesh_generate_vertices mesh block_pos 0 vertices in
  if nb =? 0 then Ok ret
  else
    let ret := Ccl.reserve_mesh ret (nb * 4) (nb * 2) in
    ret ← for_loop (Z.to_nat nb) 0 (add_quad vertices) ret;
    let '(ret, attr) :=
      Ccl.attributes_add ret "Col" Ccl.TypeColor Ccl.ATTR_ELEMENT_CORNER_BYTE in
    for_loop (Z.to_nat (nb * 6)) 0 (set_corner_color vertices attr) ret.

End Tessellation.

(** ** The editor's vector maths and state, as this file consumes them *)

Definition vec3 (F : Type) : Type := (F * F * F)%type.
Definition vec4 (F : Type) : Type := (F * F * F * F)%type.
(** [float m[4][4]]: four rows of four. *)
Definition mat4 (F : Type) : Type := (vec4 F * vec4 F * vec4 F * vec4 F)%type.

Definition vec4_to_list {F} (v : vec4 F) : list F :=
  let '(a, b, c, d) := v in [a; b; c; d].

(** The sixteen entries in memory order. *)
Definition mat4_to_list {F} (m : mat4 F) : list F :=
  let '(r0, r1, r2, r3) := m in
  vec4_to_list r0 ++ vec4_to_list r1 ++ vec4_to_list r2 ++ vec4_to_list r3.

(** The in-place helpers of the editor's vector library: each takes the
    matrix it mutates and gives its new contents. *)
Class VecOps (F : Type) : Type := {
  mat4_identity : mat4 F;
  mat4_itranslate : mat4 F -> F -> F -> F -> mat4 F;
  mat4_imul_quat : mat4 F -> vec4 F -> mat4 F;
  mat4_iscale : mat4 F -> F -> F -> F -> mat4 F;
  mat4_irotate : mat4 F -> F -> F -> F -> F -> mat4 F;
  mat4_transpose : mat4 F -> mat4 F;
  mat4_mul_vec4 : mat4 F -> vec4 F -> vec4 F;
  vec3_mul : vec3 F -> F -> vec3 F;
  (* x * DD2R, as a float *)
  degrees : Q -> F
}.

(** [crc64(crc, data, len)]: [data] stands for the [len] bytes read. *)
Class ChecksumOps : Type := {
  crc64 : Z -> list byte -> Z
}.

(** The fields of the editor's state that this file reads. *)
Record camera_t (F : Type) := {
  ofs : vec3 F;
  rot : vec4 F;
  dist : F;
  view_mat : mat4 F;
  proj_mat : mat4 F
}.
Arguments ofs {F} c.
Arguments rot {F} c.
Arguments dist {F} c.
Arguments view_mat {F} c.
Arguments proj_mat {F} c.

Record light_t (F : Type) := { yaw : F; pitch : F }.
Arguments yaw {F} l.
Arguments pitch {F} l.

Record renderer_t (F : Type) := { light : light_t F }.
Arguments light {F} r.

Record goxel_t (F mesh_t : Type) := {
  render_mesh : mesh_t;
  camera : camera_t F;
  rend : renderer_t F
}.
Arguments render_mesh {F mesh_t} g.
Arguments camera {F mesh_t} g.
Arguments rend {F mesh_t} g.

(** Modelled from the spec: [quat_copy(src, dst)] is the editor's helper;
    the rotation that section 4.3 inverts is the camera's own, so [dst]
    receives [src] unchanged. *)
Definition quat_copy {F} (src : vec4 F) : vec4 F := src.

(** ** The rendering engine: devices, scenes, sessions *)

Inductive DeviceType : Type :=
| DEVICE_NONE | DEVICE_CPU | DEVICE_OPENCL | DEVICE_CUDA
| DEVICE_NETWORK | DEVICE_MULTI.

#[global] Instance DeviceType_eq_dec : EqDecision DeviceType.
Proof. solve_decision. Defined.

Record DeviceInfo := {
  dev_type : DeviceType;
  dev_id : string
}.

(** What the engine fixes and this file relies on. *)
Class DeviceApi : Type := {
  type_from_string : string -> DeviceType;
  (* a default-constructed [DeviceInfo] *)
  DeviceInfo_default : DeviceInfo
}.

Record SessionParams := {
  progressive : bool;
  start_resolution : Z;
  device : DeviceInfo;
  samples : Z
}.

Record BufferParams := {
  width : Z;
  height : Z;
  full_width : Z;
  full_height : Z
}.

Inductive ShadingSystem := SHADINGSYSTEM_OSL | SHADINGSYSTEM_SVM.
Inductive CameraType := CAMERA_PERSPECTIVE | CAMERA_ORTHOGRAPHIC
                      | CAMERA_PANORAMA.
Inductive LightType := LIGHT_POINT | LIGHT_DISTANT | LIGHT_OTHER.

Section EngineData.
Context {F : Type}.

Inductive SocketValue : Type :=
| VString (s : string)
| VFloat (x : F)
| VFloat3 (v : Ccl.float3 F).

Record ShaderNode := {
  node_type : string;
  node_name : string;
  node_inputs : list (string * SocketValue)
}.

(** An edge goes from an output socket of a node to an input socket of a
    node; the graph's own output node is named ["output"]. *)
Record ShaderGraph := {
  nodes : list ShaderNode;
  links : list ((string * string) * (string * string))
}.

Record Shader := {
  shader_name : string;
  graph : ShaderGraph;
  shader_tagged : bool
}.

Inductive Transform : Type :=
| transform_identity
| transform_translate (v : Ccl.float3 F)
| transform_mul (a b : Transform).

Record Object := {
  obj_name : string;
  obj_mesh : Ccl.Mesh F;
  tfm : Transform
}.

Record Light := {
  light_type : LightType;
  light_size : F;
  light_dir : Ccl.float3 F;
  light_shader : string;
  light_tagged : bool
}.

Record Camera := {
  cam_width : Z;
  cam_height : Z;
  cam_fov : F;
  cam_type : CameraType;
  cam_full_width : Z;
  cam_full_height : Z;
  cam_matrix : mat4 F;
  viewplane_computed : bool;
  need_update : bool;
  need_device_update : bool
}.

Record Scene := {
  shadingsystem : ShadingSystem;
  scene_device : DeviceInfo;
  scene_camera : Camera;
  film_exposure : F;
  shaders : list Shader;
  meshes : list (Ccl.Mesh F);
  objects : list Object;
  lights : list Light
}.

(** A session object; [sid] is its identity (its address). *)
Record Session := {
  sid : nat;
  session_params : SessionParams;
  session_device : DeviceInfo;
  scene : option Scene;
  reset_with : option (BufferParams * Z);
  started : bool
}.

End EngineData.
Arguments SocketValue F : clear implicits.
Arguments ShaderNode F : clear implicits.
Arguments ShaderGraph F : clear implicits.
Arguments Shader F : clear implicits.
Arguments Transform F : clear implicits.
Arguments Object F : clear implicits.
Arguments Light F : clear implicits.
Arguments Camera F : clear implicits.
Arguments Scene F : clear implicits.
Arguments Session F : clear implicits.

(** ** Calls that leave this file *)

Inductive GlMatrix := GL_PROJECTION | GL_MODELVIEW.

Inductive Event : Type :=
| GlViewport (x y w h : Z)
| GlMatrixMode (m : GlMatrix)
| GlLoadIdentity
| GlOrtho (l r b t n f : Z)
| GlUseProgram (p : Z)
| SessionDelete (s : nat)
| SessionNew (s : nat) (p : SessionParams)
| SceneNew (w h : Z)
| SessionReset (s : nat) (b : BufferParams) (n : Z)
| SessionStart (s : nat)
| SessionDraw (s : nat) (b : BufferParams)
| ProgressGetStatus (s : nat).


(** ** The file's globals and the monad its functions run in *)

Section Bridge.
Context {F mesh_t : Type}.
Context `{FloatOps F} `{VecOps F} `{VolumeOps F mesh_t}.
Context `{ChecksumOps} `{DeviceApi}.

(** [g_session], [g_buffer_params], [g_session_params], the static
    [last_key] of [cycles_render]; the session objects that are alive;
    the next fresh address; the calls made so far, oldest first. *)
Record World := {
  g_session : option (Session F);
  g_buffer_params : BufferParams;
  g_session_params : SessionParams;
  last_key : Z;
  live : list nat;
  next_sid : nat;
  trace : list Event
}.

Definition M (A : Type) : Type := World -> result (A * World).

#[global] Instance M_ret : MRet M := fun A a w => Ok (a, w).
#[global] Instance M_bind : MBind M := fun A B k m w =>
  match m w with
  | Ok (a, w') => k a w'
  | Fault f => Fault f
  end.

Definition get : M World := fun w => Ok (w, w).
Definition crash {A} (f : fault) : M A := fun _ => Fault f.
Definition lift {A} (r : result A) : M A := fun w =>
  match r with
  | Ok a => Ok (a, w)
  | Fault f => Fault f
  end.

Definition emit (e : Event) : M unit := fun w =>
  Ok (tt, {| g_session := g_session w;
             g_buffer_params := g_buffer_params w;
             g_session_params := g_session_params w;
             last_key := last_key w;
             live := live w; next_sid := next_sid w;
             trace := trace w ++ [e] |}).

Definition set_g_session (s : option (Session F)) : M unit := fun w =>
  Ok (tt, {| g_session := s;
             g_buffer_params := g_buffer_params w;
             g_session_params := g_session_params w;
             last_key := last_key w;
             live := live w; next_sid := next_sid w;
             trace := trace w |}).

Definition set_g_buffer_params (b : BufferParams) : M unit := fun w =>
  Ok (tt, {| g_session := g_session w;
             g_buffer_params := b;
             g_session_params := g_session_params w;
             last_key := last_key w;
             live := live w; next_sid := next_sid w;
             trace := trace w |}).

Definition set_g_session_params (p : SessionParams) : M unit := fun w =>
  Ok (tt, {| g_session := g_session w;
             g_buffer_params := g_buffer_params w;
             g_session_params := p;
             last_key := last_key w;
             live := live w; next_sid := next_sid w;
             trace := trace w |}).

Definition set_last_key (k : Z) : M unit := fun w =>
  Ok (tt, {| g_session := g_session w;
             g_buffer_params := g_buffer_params w;
             g_session_params := g_session_params w;
             last_key := k;
             live := live w; next_sid := next_sid w;
             trace := trace w |}).

Definition set_heap (l : list nat) (n : nat) : M unit := fun w =>
  Ok (tt, {| g_session := g_session w;
             g_buffer_params := g_buffer_params w;
             g_session_params := g_session_params w;
             last_key := last_key w;
             live := l; next_sid := n;
             trace := trace w |}).

(** [g_session->...]: the pointer must be non-null and its target
    alive. *)
Definition deref_session : M (Session F) :=
  w ← get;
  match g_session w with
  | None => crash NullDeref
  | Some s => if decide (sid s ∈ live w) then mret s else crash NullDeref
  end.

(** [new ccl::Session(params)] *)
Definition Session_new (p : SessionParams) : M (Session F) :=
  w ← get;
  let s := {| sid := next_sid w; session_params := p;
              session_device := device p;
              scene := None; reset_with := None; started := false |} in
  set_heap (next_sid w :: live w) (Datatypes.S (next_sid w));;
  emit (SessionNew (sid s) p);;
  mret s.

(** [delete s] *)
Definition Session_delete (s : Session F) : M unit :=
  w ← get;
  set_heap (filter (λ i, i ≠ sid s) (live w)) (next_sid w);;
  emit (SessionDelete (sid s)).

(** ** Shading graphs *)

Definition create_cube_shader : Shader F :=
  let colorShaderNode :=
    {| node_type := "attribute"; node_name := "colorNode";
       node_inputs := [("attribute"%string, VString "Col")] |} in
  let diffuseBSDFShaderNode :=
    {| node_type := "diffuse_bsdf"; node_name := "diffuseBSDFNode";
       node_inputs := [] |} in
  {| shader_name := "cubeShader";
     graph :=
       {| nodes := [colorShaderNode; diffuseBSDFShaderNode];
          links := [(("colorNode", "Color"), ("diffuseBSDFNode", "Color"));
                    (("diffuseBSDFNode", "BSDF"), ("output", "Surface"))]%string |};
     shader_tagged := false |}.

Definition create_light_shader : Shader F :=
  let emissionShaderNode :=
    {| node_type := "emission"; node_name := "emissionNode";
       node_inputs :=
         [("strength"%string, VFloat (f_lit 1));
          ("color"%string,
           VFloat3 (Ccl.make_float3 (f_lit 1) (f_lit 1) (f_lit 1)))] |} in
  {| shader_name := "lightShader";
     graph :=
       {| nodes := [emissionShaderNode];
          links := [(("emissionNode", "Emission"), ("output", "Surface"))]%string |};
     shader_tagged := false |}.

(** [shader->tag_update(scene)] *)
Definition shader_tag_update (s : Shader F) : Shader F :=
  {| shader_name := shader_name s; graph := graph s; shader_tagged := true |}.

(** ** The light direction *)

Definition get_light_dir (goxel : goxel_t F mesh_t) : vec3 F :=
  let rend := rend goxel in
  let z : vec4 F := (f_of_int 0, f_of_int 0, f_of_int 1, f_of_int 0) in
  let m := mat4_identity in
  let m := mat4_irotate m (yaw (light rend)) (f_of_int 0) (f_of_int 0) (f_of_int 1) in
  let m := mat4_irotate m (pitch (light rend)) (f_of_int 1) (f_of_int 0) (f_of_int 0) in
  let '(lx, ly, lz, _) := mat4_mul_vec4 m z in
  vec3_mul (lx, ly, lz) (f_of_int (-1)).

(** ** The camera matrix: lines 186-201 of [create_scene] *)

Definition camera_matrix (goxel : goxel_t F mesh_t) : mat4 F :=
  let mat := mat4_identity in
  let '(ox, oy, oz) := ofs (camera goxel) in
  let mat := mat4_itranslate mat (f_neg ox) (f_neg oy) (f_neg oz) in
  let rot := quat_copy (rot (camera goxel)) in
  let rot := let '(r0, r1, r2, r3) := rot in
             (f_mul r0 (f_of_int (-1)), r1, r2, r3) in
  let mat := mat4_imul_quat mat rot in
  let mat := mat4_itranslate mat (f_of_int 0) (f_of_int 0) (dist (camera goxel)) in
  let mat := mat4_iscale mat (f_of_int 1) (f_of_int 1) (f_of_int (-1)) in
  let mat := mat4_transpose mat in
  mat.

(** ** The loop over the blocks of [create_scene] *)

Definition scene_add_block (mesh : Ccl.Mesh F) (block_pos : block_pos_t)
    (object_shader : Shader F) (sc : Scene F) : Scene F :=
  let mesh := Ccl.push_used_shader mesh (shader_name object_shader) in
  let object :=
    {| obj_name := "mesh"; obj_mesh := mesh;
       tfm := transform_mul transform_identity
                (transform_translate
                   (Ccl.make_float3 (f_of_int block_pos.1.1)
                                    (f_of_int block_pos.1.2)
                                    (f_of_int block_pos.2))) |} in
  {| shadingsystem := shadingsystem sc; scene_device := scene_device sc;
     scene_camera := scene_camera sc; film_exposure := film_exposure sc;
     shaders := shaders sc;
     meshes := meshes sc ++ [mesh];
     objects := objects sc ++ [object];
     lights := lights sc |}.

(** [while (mesh_iter(&iter, block_pos)) { ... }] over the positions the
    iterator yields. *)
Fixpoint scene_add_blocks (gmesh : mesh_t) (object_shader : Shader F)
    (blocks : list block_pos_t) (sc : Scene F) : result (Scene F) :=
  match blocks with
  | [] => Ok sc
  | block_pos :: rest =>
      mesh ← create_mesh_for_block gmesh block_pos;
      scene_add_blocks gmesh object_shader rest
        (scene_add_block mesh block_pos object_shader sc)
  end.

Definition scene_push_shader (sc : Scene F) (s : Shader F) : Scene F :=
  {| shadingsystem := shadingsystem sc; scene_device := scene_device sc;
     scene_camera := scene_camera sc; film_exposure := film_exposure sc;
     shaders := shaders sc ++ [s];
     meshes := meshes sc; objects := objects sc; lights := lights sc |}.

Definition scene_push_light (sc : Scene F) (l : Light F) : Scene F :=
  {| shadingsystem := shadingsystem sc; scene_device := scene_device sc;
     scene_camera := scene_camera sc; film_exposure := film_exposure sc;
     shaders := shaders sc;
     meshes := meshes sc; objects := objects sc;
     lights := lights sc ++ [l] |}.

Definition scene_set_camera (sc : Scene F) (c : Camera F) : Scene F :=
  {| shadingsystem := shadingsystem sc; scene_device := scene_device sc;
     scene_camera := c; film_exposure := film_exposure sc;
     shaders := shaders sc;
     meshes := meshes sc; objects := objects sc; lights := lights sc |}.

Definition create_scene (goxel : goxel_t F mesh_t) (w h : Z) : M (Scene F) :=
  let gmesh := render_mesh goxel in
  s ← deref_session;
  emit (SceneNew w h);;
  let scene :=
    {| shadingsystem := SHADINGSYSTEM_OSL;
       scene_device := session_device s;
       scene_camera :=
         {| cam_width := w; cam_height := h;
            cam_fov := degrees 20;
            cam_type := CAMERA_PERSPECTIVE;
            cam_full_width := w; cam_full_height := h;
            cam_matrix := camera_matrix goxel;
            viewplane_computed := false;
            need_update := false; need_device_update := false |};
       film_exposure := f_lit 1;
       shaders := []; meshes := []; objects := []; lights := [] |} in
  let object_shader := shader_tag_update create_cube_shader in
  let scene := scene_push_shader scene object_shader in
  let iter := mesh_iter_blocks gmesh
                (Z.lor MESH_ITER_BLOCKS MESH_ITER_INCLUDES_NEIGHBORS) in
  scene ← lift (scene_add_blocks gmesh object_shader iter scene);
  let '(lx, ly, lz) := get_light_dir goxel in
  let light_shader := shader_tag_update create_light_shader in
  let scene := scene_push_shader scene light_shader in
  let light :=
    {| light_type := LIGHT_DISTANT; light_size := f_lit (5 # 100);
       light_dir := Ccl.make_float3 lx ly lz;
       light_shader := shader_name light_shader;
       light_tagged := true |} in
  let scene := scene_push_light scene light in
  let c := scene_camera scene in
  mret (scene_set_camera scene
          {| cam_width := cam_width c; cam_height := cam_height c;
             cam_fov := cam_fov c; cam_type := cam_type c;
             cam_full_width := cam_full_width c;
             cam_full_height := cam_full_height c;
             cam_matrix := cam_matrix c;
             viewplane_computed := true;
             need_update := true; need_device_update := true |}).

(** ** Session calls made through [g_session] *)

(** [g_session->scene = sc] *)
Definition session_set_scene (sc : Scene F) : M unit :=
  s ← deref_session;
  set_g_session
    (Some {| sid := sid s; session_params := session_params s;
             session_device := session_device s;
             scene := Some sc;
             reset_with := reset_with s; started := started s |}).

(** [g_session->reset(b, n)] *)
Definition session_reset (b : BufferParams) (n : Z) : M unit :=
  s ← deref_session;
  emit (SessionReset (sid s) b n);;
  set_g_session
    (Some {| sid := sid s; session_params := session_params s;
             session_device := session_device s;
             scene := scene s;
             reset_with := Some (b, n); started := started s |}).

(** [g_session->start()] *)
Definition session_start : M unit :=
  s ← deref_session;
  emit (SessionStart (sid s));;
  set_g_session
    (Some {| sid := sid s; session_params := session_params s;
             session_device := session_device s;
             scene := scene s;
             reset_with := reset_with s; started := true |}).

(** [g_session->draw(b, draw_params)] *)
Definition session_draw (b : BufferParams) : M unit :=
  s ← deref_session;
  emit (SessionDraw (sid s) b).

(** [g_session->progress.get_status(status, substatus)] *)
Definition session_get_status : M unit :=
  s ← deref_session;
  emit (ProgressGetStatus (sid s)).

(** ** [cycles_init] *)

(** The loop over the devices, with its [break]. *)
Fixpoint select_device (device_type : DeviceType)
    (devices : list DeviceInfo) (device_info : DeviceInfo) : DeviceInfo :=
  match devices with
  | [] => device_info
  | device :: rest =>
      if decide (device_type = dev_type device) then device
      else select_device device_type rest device_info
  end.

(** [devices] is what [ccl::Device::available_devices()] returns. *)
Definition cycles_init (devices : list DeviceInfo) : M unit :=
  let device_info := DeviceInfo_default in
  let device_type := type_from_string "CPU" in
  let device_info := select_device device_type devices device_info in
  w ← get;
  let p := g_session_params w in
  let p := {| progressive := true; start_resolution := start_resolution p;
              device := device p; samples := samples p |} in
  let p := {| progressive := progressive p; start_resolution := 64;
              device := device p; samples := samples p |} in
  let p := {| progressive := progressive p;
              start_resolution := start_resolution p;
              device := device_info; samples := samples p |} in
  let p := {| progressive := progressive p;
              start_resolution := start_resolution p;
              device := device p; samples := 20 |} in
  set_g_session_params p.

(** ** [get_render_key] *)

(** A value stored in a [uint64_t]. *)
Definition to_uint64 (z : Z) : Z := z mod 2 ^ 64.

(** The bytes at a [float[4][4]]. *)
Definition mat4_bytes (m : mat4 F) : list byte :=
  concat (map float_bytes (mat4_to_list m)).

Definition get_render_key (goxel : goxel_t F mesh_t) : Z :=
  let camera := camera goxel in
  let key := to_uint64 (mesh_get_key (render_mesh goxel)) in
  let key := to_uint64 (crc64 key (mat4_bytes (view_mat camera))) in
  let key := to_uint64 (crc64 key (mat4_bytes (proj_mat camera))) in
  key.

(** ** [cycles_render] *)

(** Lines 304-311: the body of [if (key != last_key)]. *)
Definition rebuild (goxel : goxel_t F mesh_t) (key w h : Z) : M unit :=
  set_last_key key;;
  st ← get;
  match g_session st with
  | Some s => Session_delete s
  | None => mret tt
  end;;
  st ← get;
  s ← Session_new (g_session_params st);
  set_g_session (Some s);;
  sc ← create_scene goxel w h;
  session_set_scene sc;;
  st ← get;
  session_reset (g_buffer_params st) (samples (g_session_params st));;
  session_start.

(** Everything after [key = get_render_key()]. *)
Definition render_with_key (goxel : goxel_t F mesh_t) (key w h : Z) : M unit :=
  st ← get;
  (if decide (key ≠ last_key st) then rebuild goxel key w h else mret tt);;
  st ← get;
  match g_session st with
  | None => mret tt
  | Some _ =>
      session_draw (g_buffer_params st);;
      session_get_status
  end.

Definition cycles_render (goxel : goxel_t F mesh_t) (rect : Z * Z * Z * Z)
    : M unit :=
  let '(rect0, rect1, rect2, rect3) := rect in
  let w := rect2 in
  let h := rect3 in
  set_g_buffer_params
    {| width := w; height := h; full_width := w; full_height := h |};;
  emit (GlViewport rect0 rect1 rect2 rect3);;
  emit (GlMatrixMode GL_PROJECTION);;
  emit GlLoadIdentity;;
  st ← get;
  emit (GlOrtho 0 (width (g_buffer_params st)) 0
                (height (g_buffer_params st)) (-1) 1);;
  emit (GlMatrixMode GL_MODELVIEW);;
  emit GlLoadIdentity;;
  emit (GlUseProgram 0);;
  let key := get_render_key goxel in
  render_with_key goxel key w h.

End Bridge.
Arguments World F : clear implicits.
Arguments M F A : clear implicits.

(** ** The block mesh, as the data model describes it *)

Section BlockMeshSpec.
Context {F : Type}.

Definition pos3 (v : voxel_vertex_t F) : Ccl.float3 F :=
  Ccl.make_float3 (pos v).1.1 (pos v).1.2 (pos v).2.

Definition rgba (v : voxel_vertex_t F) : Ccl.uchar4 :=
  Ccl.make_uchar4 (color v).1.1.1 (color v).1.1.2 (color v).1.2 (color v).2.

Definition triangle (a b c : Z) : Ccl.Triangle :=
  {| Ccl.v0 := a; Ccl.v1 := b; Ccl.v2 := c;
     Ccl.tri_shader := 0; Ccl.tri_smooth := false |}.

(** The two triangles of quad [i]. *)
Definition quad_triangles (i : nat) : list Ccl.Triangle :=
  [triangle (Z.of_nat i * 4 + 0) (Z.of_nat i * 4 + 1) (Z.of_nat i * 4 + 2);
   triangle (Z.of_nat i * 4 + 2) (Z.of_nat i * 4 + 3) (Z.of_nat i * 4 + 0)].

(** The colour of triangle corner [c]: that of the first vertex of the
    quad the corner belongs to. *)
Definition corner_color (vertices : list (voxel_vertex_t F)) (c : nat)
    : Ccl.uchar4 :=
  from_option rgba Ccl.zero_uchar4 (vertices !! (c / 6 * 4)%nat).

(** The mesh after [k] quads were added, [nb] having been reserved. *)
Definition quads_mesh (vertices : list (voxel_vertex_t F)) (nb : Z) (k : nat)
    : Ccl.Mesh F :=
  {| Ccl.subdivision_type := Ccl.SUBDIVISION_NONE;
     Ccl.reserved_verts := nb * 4;
     Ccl.reserved_tris := nb * 2;
     Ccl.verts := pos3 <$> take (4 * k) vertices;
     Ccl.triangles := flat_map quad_triangles (seq 0 k);
     Ccl.attributes := [];
     Ccl.used_shaders := [] |}.

Definition col_attribute (data : list Ccl.uchar4) : Ccl.Attribute :=
  {| Ccl.attr_name := "Col"; Ccl.attr_type := Ccl.TypeColor;
     Ccl.attr_element := Ccl.ATTR_ELEMENT_CORNER_BYTE;
     Ccl.attr_data := data |}.

(** The colour data after the first [k] corners of [n] quads were
    written. *)
Definition colors_upto (vertices : list (voxel_vertex_t F)) (n k : nat)
    : list Ccl.uchar4 :=
  (corner_color vertices <$> seq 0 k) ++ replicate (6 * n - k) Ccl.zero_uchar4.

(** The finished mesh of a block of [n] quads. *)
Definition block_mesh (vertices : list (voxel_vertex_t F)) (n : nat)
    : Ccl.Mesh F :=
  Ccl.set_attributes (quads_mesh vertices (Z.of_nat n) n)
    [col_attribute (corner_color vertices <$> seq 0 (6 * n))].

(** The mesh of a block without quads. *)
Definition empty_block_mesh : Ccl.Mesh F :=
  Ccl.set_subdivision_type Ccl.Mesh_new Ccl.SUBDIVISION_NONE.

End BlockMeshSpec.

(** ** What the claims speak of, in the words of the specification *)

Section BridgeSpec.
Context {F mesh_t : Type}.
Context `{FloatOps F} `{VecOps F} `{VolumeOps F mesh_t}.
Context `{ChecksumOps} `{DeviceApi}.

(** The object placed for a block whose mesh is [m]. *)
Definition block_object (m : Ccl.Mesh F) (block_pos : block_pos_t) : Object F :=
  {| obj_name := "mesh";
     obj_mesh := Ccl.push_used_shader m "cubeShader";
     tfm := transform_mul transform_identity
              (transform_translate
                 (Ccl.make_float3 (f_of_int block_pos.1.1)
                                  (f_of_int block_pos.1.2)
                                  (f_of_int block_pos.2))) |}.

(** A scene with the objects [objs], and their meshes, added. *)
Definition scene_with_objects (sc : Scene F) (objs : list (Object F)) : Scene F :=
  {| shadingsystem := shadingsystem sc; scene_device := scene_device sc;
     scene_camera := scene_camera sc; film_exposure := film_exposure sc;
     shaders := shaders sc;
     meshes := meshes sc ++ (obj_mesh <$> objs);
     objects := objects sc ++ objs;
     lights := lights sc |}.

(** [o] is the object that the block at [block_pos] gets. *)
Definition object_of_block (gmesh : mesh_t) (block_pos : block_pos_t)
    (o : Object F) : Prop :=
  exists m, create_mesh_for_block gmesh block_pos = Ok m
            /\ o = block_object m block_pos.

(** The positions the block loop of [create_scene] visits. *)
Definition scene_blocks (goxel : goxel_t F mesh_t) : list block_pos_t :=
  mesh_iter_blocks (render_mesh goxel)
    (Z.lor MESH_ITER_BLOCKS MESH_ITER_INCLUDES_NEIGHBORS).

(** The tessellator honours its buffer: the quads it reports lie within
    the buffer it hands back. *)
Definition tessellation_fits (gmesh : mesh_t) (block_pos : block_pos_t) : Prop :=
  let '(nb, vertices) :=
    mesh_generate_vertices gmesh block_pos 0 calloc_vertices in
  nb * 4 <= Z.of_nat (length vertices).

(** Number of quads of a block. *)
Definition block_quads (gmesh : mesh_t) (block_pos : block_pos_t) : Z :=
  (mesh_generate_vertices gmesh block_pos 0 calloc_vertices).1.

(** The camera matrix of section 4.3: the four steps applied in order to
    the identity, then transposed. *)
Definition quat_invert_scalar (q : vec4 F) : vec4 F :=
  let '(q0, q1, q2, q3) := q in (f_neg q0, q1, q2, q3).

Definition camera_steps (cam : camera_t F) : list (mat4 F -> mat4 F) :=
  [ (fun m => mat4_itranslate m (f_neg (ofs cam).1.1) (f_neg (ofs cam).1.2)
                                (f_neg (ofs cam).2));
    (fun m => mat4_imul_quat m (quat_invert_scalar (rot cam)));
    (fun m => mat4_itranslate m (f_of_int 0) (f_of_int 0) (dist cam));
    (fun m => mat4_iscale m (f_of_int 1) (f_of_int 1) (f_of_int (-1))) ].

Definition camera_matrix_spec (cam : camera_t F) : mat4 F :=
  mat4_transpose (fold_left (fun m step => step m) (camera_steps cam) mat4_identity).

(** The render key of section 4.4: the content hash, folded with the
    bytes of the view matrix and then with those of the projection
    matrix. *)
Definition render_key_spec (goxel : goxel_t F mesh_t) : Z :=
  fold_left crc64
    [mat4_bytes (view_mat (camera goxel)); mat4_bytes (proj_mat (camera goxel))]
    (mesh_get_key (render_mesh goxel)).

(** The display calls that open every frame. *)
Definition frame_setup (rect : Z * Z * Z * Z) : list Event :=
  let '(x, y, w, h) := rect in
  [GlViewport x y w h; GlMatrixMode GL_PROJECTION; GlLoadIdentity;
   GlOrtho 0 w 0 h (-1) 1; GlMatrixMode GL_MODELVIEW; GlLoadIdentity;
   GlUseProgram 0].

Definition rect_buffer_params (rect : Z * Z * Z * Z) : BufferParams :=
  let '(_, _, w, h) := rect in
  {| width := w; height := h; full_width := w; full_height := h |}.

(** The globals after a frame: what changed is named, the rest is kept. *)
Definition frame_world (st : World F) (s : option (Session F))
    (b : BufferParams) (k : Z) (l : list nat) (n : nat) (evs : list Event)
    : World F :=
  {| g_session := s; g_buffer_params := b;
     g_session_params := g_session_params st;
     last_key := k; live := l; next_sid := n;
     trace := trace st ++ evs |}.

(** What [create_scene] puts into the scene it returns. *)
Definition scene_built (goxel : goxel_t F mesh_t) (w h : Z) (dev : DeviceInfo)
    (sc : Scene F) : Prop :=
  meshes sc = obj_mesh <$> objects sc
  /\ Forall2 (object_of_block (render_mesh goxel)) (scene_blocks goxel)
             (objects sc)
  /\ cam_matrix (scene_camera sc) = camera_matrix goxel
  /\ cam_width (scene_camera sc) = w /\ cam_height (scene_camera sc) = h
  /\ scene_device sc = dev
  /\ shader_name <$> shaders sc = ["cubeShader"; "lightShader"]%string
  /\ length (lights sc) = 1%nat.

(** The live sessions and the calls made once [cycles_render] has
    deleted the session it had. *)
Definition deleted_live (st : World F) : list nat :=
  match g_session st with
  | Some s => filter (λ i, i ≠ sid s) (live st)
  | None => live st
  end.

Definition delete_events (st : World F) : list Event :=
  match g_session st with
  | Some s => [SessionDelete (sid s)]
  | None => []
  end.

(** The session that a rebuild leaves in [g_session]. *)
Definition built_session (st : World F) (sc : Scene F) : Session F :=
  {| sid := next_sid st;
     session_params := g_session_params st;
     session_device := device (g_session_params st);
     scene := Some sc;
     reset_with := Some (g_buffer_params st, samples (g_session_params st));
     started := true |}.

(** The calls of a rebuild, after the deletion. *)
Definition build_events (st : World F) (w h : Z) : list Event :=
  [SessionNew (next_sid st) (g_session_params st);
   SceneNew w h;
   SessionReset (next_sid st) (g_buffer_params st)
                (samples (g_session_params st));
   SessionStart (next_sid st)].

(** The calls that end a frame when [s] is the session. *)
Definition draw_events (s : Session F) (b : BufferParams) : list Event :=
  [SessionDraw (sid s) b; ProgressGetStatus (sid s)].

(** The session is usable: a non-null [g_session] points to a live
    object. *)
Definition session_valid (st : World F) : Prop :=
  match g_session st with
  | Some s => sid s ∈ live st
  | None => True
  end.

(** [cycles_init] has run. *)
Definition initialised (st : World F) : Prop :=
  progressive (g_session_params st) = true
  /\ start_resolution (g_session_params st) = 64
  /\ samples (g_session_params st) = 20.

End BridgeSpec.

(** ** A small implementation of the interfaces

    Integers stand in for floats, a volume is the list of its blocks with
    the quads already cut, and the checksum is a bitwise CRC-64.  The
    definitions above are evaluated on it. *)

Module Fixture.

Definition byte_of_Z (z : Z) : byte :=
  match Byte.of_N (Z.to_N (z mod 256)) with
  | Some b => b
  | None => x00
  end.

(** Four bytes, least significant first. *)
Definition le_bytes32 (z : Z) : list byte :=
  [byte_of_Z z; byte_of_Z (Z.shiftr z 8); byte_of_Z (Z.shiftr z 16);
   byte_of_Z (Z.shiftr z 24)].

#[global] Instance float_Z : FloatOps Z := {|
  f_of_int := fun n => n;
  f_lit := Qfloor;
  f_neg := Z.opp;
  f_mul := Z.mul;
  float_bytes := le_bytes32
|}.

Definition dot4 (a b : vec4 Z) : Z :=
  let '(a0, a1, a2, a3) := a in
  let '(b0, b1, b2, b3) := b in
  a0 * b0 + a1 * b1 + a2 * b2 + a3 * b3.

Definition transpose4 (m : mat4 Z) : mat4 Z :=
  let '((a0, a1, a2, a3), (b0, b1, b2, b3),
        (c0, c1, c2, c3), (d0, d1, d2, d3)) := m in
  ((a0, b0, c0, d0), (a1, b1, c1, d1), (a2, b2, c2, d2), (a3, b3, c3, d3)).

(** Row [i] of the product is the combination of the rows of [b] with
    the coefficients of row [i] of [a]. *)
Definition mul4 (a b : mat4 Z) : mat4 Z :=
  let '(c0, c1, c2, c3) := transpose4 b in
  let row (r : vec4 Z) : vec4 Z := (dot4 r c0, dot4 r c1, dot4 r c2, dot4 r c3) in
  let '(r0, r1, r2, r3) := a in
  (row r0, row r1, row r2, row r3).

Definition identity4 : mat4 Z :=
  ((1, 0, 0, 0), (0, 1, 0, 0), (0, 0, 1, 0), (0, 0, 0, 1)).

Definition translation4 (x y z : Z) : mat4 Z :=
  ((1, 0, 0, 0), (0, 1, 0, 0), (0, 0, 1, 0), (x, y, z, 1)).

Definition scale4 (x y z : Z) : mat4 Z :=
  ((x, 0, 0, 0), (0, y, 0, 0), (0, 0, z, 0), (0, 0, 0, 1)).

(** The matrix of a quaternion [(w, x, y, z)]. *)
Definition quat4 (q : vec4 Z) : mat4 Z :=
  let '(w, x, y, z) := q in
  ((1 - 2 * y * y - 2 * z * z, 2 * x * y + 2 * z * w, 2 * x * z - 2 * y * w, 0),
   (2 * x * y - 2 * z * w, 1 - 2 * x * x - 2 * z * z, 2 * y * z + 2 * x * w, 0),
   (2 * x * z + 2 * y * w, 2 * y * z - 2 * x * w, 1 - 2 * x * x - 2 * y * y, 0),
   (0, 0, 0, 1)).

(** Rotations by an angle are left out: the fixture's light is not
    turned. *)
#[global] Instance vec_Z : VecOps Z := {|
  mat4_identity := identity4;
  mat4_itranslate := fun m x y z => mul4 (translation4 x y z) m;
  mat4_imul_quat := fun m q => mul4 (quat4 q) m;
  mat4_iscale := fun m x y z => mul4 (scale4 x y z) m;
  mat4_irotate := fun m a x y z => m;
  mat4_transpose := transpose4;
  mat4_mul_vec4 := fun m v =>
    let '(c0, c1, c2, c3) := transpose4 m in
    (dot4 c0 v, dot4 c1 v, dot4 c2 v, dot4 c3 v);
  vec3_mul := fun v k => let '(x, y, z) := v in (x * k, y * k, z * k);
  degrees := Qfloor
|}.

(** A volume: its blocks, each with the vertices of its visible quads. *)
Definition volume : Type := list (block_pos_t * list (voxel_vertex_t Z)).

Fixpoint block_vertices (m : volume) (p : block_pos_t)
    : list (voxel_vertex_t Z) :=
  match m with
  | [] => []
  | (q, vs) :: rest => if decide (p = q) then vs else block_vertices rest p
  end.

#[global] Instance volume_ops : VolumeOps Z volume := {|
  BLOCK_SIZE := 16;
  MESH_ITER_BLOCKS := 2;
  MESH_ITER_INCLUDES_NEIGHBORS := 8;
  mesh_generate_vertices := fun m p effects out =>
    let vs := block_vertices m p in
    (Z.of_nat (length vs / 4), vs ++ drop (length vs) out);
  mesh_iter_blocks := fun m flags => fst <$> m;
  mesh_get_key := fun m =>
    Z.of_nat (length m) + 7 * Z.of_nat (length (concat (snd <$> m)))
|}.

Definition crc64_poly : Z := 0x95ac9329ac4bc9b5.

Definition crc64_bit (crc : Z) : Z :=
  if Z.testbit crc 0 then Z.lxor (Z.shiftr crc 1) crc64_poly
  else Z.shiftr crc 1.

Definition crc64_byte (crc : Z) (b : byte) : Z :=
  Nat.iter 8 crc64_bit (Z.lxor crc (Z.of_N (Byte.to_N b))).

(** Seed and result are [uint64_t]. *)
#[global] Instance crc64_bitwise : ChecksumOps := {|
  crc64 := fun crc data => (fold_left crc64_byte data (crc mod 2 ^ 64)) mod 2 ^ 64
|}.

#[global] Instance device_api : DeviceApi := {|
  type_from_string := fun s =>
    if decide (s = "CPU"%string) then DEVICE_CPU
    else if decide (s = "CUDA"%string) then DEVICE_CUDA
    else if decide (s = "OPENCL"%string) then DEVICE_OPENCL
    else if decide (s = "NETWORK"%string) then DEVICE_NETWORK
    else if decide (s = "MULTI"%string) then DEVICE_MULTI
    else DEVICE_NONE;
  DeviceInfo_default := {| dev_type := DEVICE_CPU; dev_id := "CPU" |}
|}.

Definition cpu_device : DeviceInfo := {| dev_type := DEVICE_CPU; dev_id := "CPU" |}.
Definition cuda_device : DeviceInfo :=
  {| dev_type := DEVICE_CUDA; dev_id := "CUDA_0" |}.

(** The globals when the program starts. *)
Definition world0 : World Z :=
  {| g_session := None;
     g_buffer_params := {| width := 0; height := 0; full_width := 0; full_height := 0 |};
     g_session_params :=
       {| progressive := false; start_resolution := 0;
          device := DeviceInfo_default; samples := 0 |};
     last_key := 0; live := []; next_sid := 0; trace := [] |}.

(** A session right after [new ccl::Session], and the globals with it. *)
Definition session0 : Session Z :=
  {| sid := 0; session_params := g_session_params world0;
     session_device := cpu_device;
     scene := None; reset_with := None; started := false |}.

Definition world1 : World Z :=
  {| g_session := Some session0;
     g_buffer_params := g_buffer_params world0;
     g_session_params := g_session_params world0;
     last_key := 0; live := [0%nat]; next_sid := 1; trace := [] |}.

Definition vertex (x y z : Z) (c : byte * byte * byte * byte) : voxel_vertex_t Z :=
  {| pos := (x, y, z); color := c |}.

Definition red : byte * byte * byte * byte := (xff, x00, x00, xff)%byte.
Definition green : byte * byte * byte * byte := (x00, xff, x00, xff)%byte.
Definition blue : byte * byte * byte * byte := (x00, x00, xff, xff)%byte.

(** The six faces of the unit cube at the origin, opposite faces in one
    colour. *)
Definition cube_quads : list (voxel_vertex_t Z) :=
  [vertex 0 0 0 red; vertex 0 1 0 red; vertex 1 1 0 red; vertex 1 0 0 red;
   vertex 0 0 1 red; vertex 1 0 1 red; vertex 1 1 1 red; vertex 0 1 1 red;
   vertex 0 0 0 green; vertex 1 0 0 green; vertex 1 0 1 green; vertex 0 0 1 green;
   vertex 0 1 0 green; vertex 0 1 1 green; vertex 1 1 1 green; vertex 1 1 0 green;
   vertex 0 0 0 blue; vertex 0 0 1 blue; vertex 0 1 1 blue; vertex 0 1 0 blue;
   vertex 1 0 0 blue; vertex 1 1 0 blue; vertex 1 1 1 blue; vertex 1 0 1 blue].

Definition orbit_camera : camera_t Z :=
  {| ofs := (1, 2, 3); rot := (1, 0, 0, 0); dist := 10;
     view_mat := translation4 0 0 (-10);
     proj_mat := identity4 |}.

Definition zero4 : mat4 Z :=
  ((0, 0, 0, 0), (0, 0, 0, 0), (0, 0, 0, 0), (0, 0, 0, 0)).

Definition blank_camera : camera_t Z :=
  {| ofs := (0, 0, 0); rot := (1, 0, 0, 0); dist := 0;
     view_mat := zero4; proj_mat := zero4 |}.

Definition renderer : renderer_t Z := {| light := {| yaw := 0; pitch := 0 |} |}.

(** One voxel at the origin. *)
Definition one_voxel : goxel_t Z volume :=
  {| render_mesh := [((0, 0, 0), cube_quads)];
     camera := orbit_camera; rend := renderer |}.

(** One block that the iterator yields and that has no visible face. *)
Definition hollow : goxel_t Z volume :=
  {| render_mesh := [((0, 0, 0), [])];
     camera := orbit_camera; rend := renderer |}.

(** No block at all, and a camera whose matrices are not set yet. *)
Definition blank : goxel_t Z volume :=
  {| render_mesh := []; camera := blank_camera; rend := renderer |}.

(** The value of a run, when it returned. *)
Definition run {A} (m : M Z A) (st : World Z) : option (World Z) :=
  match m st with
  | Ok (_, st') => Some st'
  | Fault _ => None
  end.

End Fixture.

(** ** Further notions: well-formed meshes, the order of the engine calls,
       the states a run can reach *)

Section MeshShape.
Context {F : Type}.

(** What the embedding of [create_mesh_for_block] gives for a negative
    count [nb]: the test [if (!nb)] lets it through and no loop runs.
    What the engine's [reserve_mesh] does with a negative request is not
    known here, and the tessellator reports no such count; the shape only
    serves the case analysis of the embedding. *)
Definition negative_block_mesh (nb : Z) : Ccl.Mesh F :=
  {| Ccl.subdivision_type := Ccl.SUBDIVISION_NONE;
     Ccl.reserved_verts := nb * 4;
     Ccl.reserved_tris := nb * 2;
     Ccl.verts := [];
     Ccl.triangles := [];
     Ccl.attributes := [col_attribute []];
     Ccl.used_shaders := [] |}.

(** A triangle refers to vertices of the mesh. *)
Definition triangle_in_range (m : Ccl.Mesh F) (t : Ccl.Triangle) : Prop :=
  0 <= Ccl.v0 t < Z.of_nat (length (Ccl.verts m))
  /\ 0 <= Ccl.v1 t < Z.of_nat (length (Ccl.verts m))
  /\ 0 <= Ccl.v2 t < Z.of_nat (length (Ccl.verts m)).

(** Every triangle refers to vertices of the mesh, there are four
    vertices for every two triangles, and every attribute has one entry
    per triangle corner. *)
Definition mesh_wellformed (m : Ccl.Mesh F) : Prop :=
  Forall (triangle_in_range m) (Ccl.triangles m)
  /\ (length (Ccl.verts m) = 2 * length (Ccl.triangles m))%nat
  /\ Forall (fun a => length (Ccl.attr_data a) = (3 * length (Ccl.triangles m))%nat)
            (Ccl.attributes m).

(** The attribute names that the attribute nodes of a graph read. *)
Definition node_attribute_names (n : ShaderNode F) : list string :=
  if String.eqb (node_type n) "attribute" then
    flat_map (fun kv : string * SocketValue F =>
                match kv.2 with
                | VString a => if String.eqb kv.1 "attribute" then [a] else []
                | _ => []
                end)
             (node_inputs n)
  else [].

Definition attribute_names (g : ShaderGraph F) : list string :=
  flat_map node_attribute_names (nodes g).

End MeshShape.

(** The life of a session object, as the calls on it show it. *)
Inductive Phase : Type :=
| Constructed | WithScene | ResetDone | Running.

(** One call, checked against the session that is alive (if any) and its
    phase: a session is constructed only when none is alive; the scene is
    made for a session just constructed; reset, start and draw follow in
    this order, on that session; only a running session is deleted.  The
    display calls are always allowed.  [None] is a violation. *)
Definition protocol_step (cur : option (nat * Phase)) (e : Event)
    : option (option (nat * Phase)) :=
  match e with
  | GlViewport _ _ _ _ | GlMatrixMode _ | GlLoadIdentity
  | GlOrtho _ _ _ _ _ _ | GlUseProgram _ => Some cur
  | SessionNew s _ =>
      match cur with
      | None => Some (Some (s, Constructed))
      | Some _ => None
      end
  | SceneNew _ _ =>
      match cur with
      | Some (s, Constructed) => Some (Some (s, WithScene))
      | _ => None
      end
  | SessionReset s' _ _ =>
      match cur with
      | Some (s, WithScene) => if Nat.eqb s s' then Some (Some (s, ResetDone)) else None
      | _ => None
      end
  | SessionStart s' =>
      match cur with
      | Some (s, ResetDone) => if Nat.eqb s s' then Some (Some (s, Running)) else None
      | _ => None
      end
  | SessionDraw s' _ | ProgressGetStatus s' =>
      match cur with
      | Some (s, Running) => if Nat.eqb s s' then Some cur else None
      | _ => None
      end
  | SessionDelete s' =>
      match cur with
      | Some (s, Running) => if Nat.eqb s s' then Some None else None
      | _ => None
      end
  end.

(** The calls that show the image: the draw and the status query. *)
Definition is_draw_call (e : Event) : bool :=
  match e with
  | SessionDraw _ _ | ProgressGetStatus _ => true
  | _ => false
  end.

Fixpoint protocol_run (cur : option (nat * Phase)) (evs : list Event)
    : option (option (nat * Phase)) :=
  match evs with
  | [] => Some cur
  | e :: rest =>
      match protocol_step cur e with
      | Some cur' => protocol_run cur' rest
      | None => None
      end
  end.

Section Reachable.
Context {F mesh_t : Type}.
Context `{FloatOps F} `{VecOps F} `{VolumeOps F mesh_t}.
Context `{ChecksumOps} `{DeviceApi}.

(** The states of a run: the program starts with no session, no call
    made and the stored key 0; then [cycles_init] and [cycles_render] are
    called, any number of times, with any arguments, and return. *)
Inductive reachable : World F -> Prop :=
| reach_start (st : World F) :
    g_session st = None -> live st = [] -> trace st = [] -> last_key st = 0 ->
    reachable st
| reach_init (st st' : World F) (devices : list DeviceInfo) :
    reachable st -> cycles_init devices st = Ok (tt, st') -> reachable st'
| reach_frame (st st' : World F) (goxel : goxel_t F mesh_t)
    (rect : Z * Z * Z * Z) :
    reachable st -> cycles_render goxel rect st = Ok (tt, st') -> reachable st'.

(** The states of a run in which [cycles_init] has been called: those
    that a call of [cycles_init] returns, and those that frames lead to
    from there. *)
Inductive initialised_run : World F -> Prop :=
| run_init (st st' : World F) (devices : list DeviceInfo) :
    reachable st -> cycles_init devices st = Ok (tt, st') ->
    initialised_run st'
| run_frame (st st' : World F) (goxel : goxel_t F mesh_t)
    (rect : Z * Z * Z * Z) :
    initialised_run st -> cycles_render goxel rect st = Ok (tt, st') ->
    initialised_run st'.

(** The session in [g_session] is the one session alive, and it is fully
    set up: it has its scene, it was reset with the buffer parameters the
    scene was made for and with its own sample count, and it was started.
    Without a session nothing is alive. *)
Definition controller_inv (st : World F) : Prop :=
  match g_session st with
  | None => live st = []
  | Some s =>
      live st = [sid s]
      /\ started s = true
      /\ exists sc b,
           scene s = Some sc
           /\ reset_with s = Some (b, samples (session_params s))
           /\ cam_width (scene_camera sc) = width b
           /\ cam_height (scene_camera sc) = height b
  end.

(** The scene in use was built from a state of the editor whose render
    key is the stored key; as long as nothing was built the stored key is
    its initial 0. *)
Definition scene_of_stored_key (st : World F) : Prop :=
  match g_session st with
  | None => last_key st = 0
  | Some s =>
      exists (goxel0 : goxel_t F mesh_t) (w h : Z) (sc : Scene F),
        scene s = Some sc
        /\ scene_built goxel0 w h (session_device s) sc
        /\ get_render_key goxel0 = last_key st
  end.

(** The session that the calls made so far leave, and its phase. *)
Definition current_session (st : World F) : option (nat * Phase) :=
  match g_session st with
  | Some s => Some (sid s, Running)
  | None => None
  end.

End Reachable.

(** A tessellator that reports more quads than its buffer holds, and an
    editor state with another light. *)
Module FixtureEdge.

Definition overrun_ops : VolumeOps Z unit := {|
  BLOCK_SIZE := 16;
  MESH_ITER_BLOCKS := 2;
  MESH_ITER_INCLUDES_NEIGHBORS := 8;
  mesh_generate_vertices := fun _ _ _ out => (2, take 6 out);
  mesh_iter_blocks := fun _ _ => [(0, 0, 0)];
  mesh_get_key := fun _ => 1
|}.

(** The one-voxel scene with the light turned and the orbit changed, the
    view and projection matrices as they were. *)
Definition one_voxel_relit : goxel_t Z Fixture.volume :=
  {| render_mesh := render_mesh Fixture.one_voxel;
     camera := {| ofs := (5, 5, 5); rot := (0, 1, 0, 0); dist := 20;
                  view_mat := view_mat Fixture.orbit_camera;
                  proj_mat := proj_mat Fixture.orbit_camera |};
     rend := {| light := {| yaw := 1; pitch := 2 |} |} |}.

End FixtureEdge.

(** * Properties *)

(** ** Arrays and loops *)

Lemma array_get_ok {A} (a : list A) (k : nat) (x : A) :
  a !! k = Some x -> array_get a (Z.of_nat k) = Ok x.
Proof.
  intros Hk. unfold array_get.
  destruct (Z.ltb_spec (Z.of_nat k) 0) as [Hneg|_]; [lia|].
  now rewrite Nat2Z.id, Hk.
Qed.

Lemma array_set_ok {A} (a : list A) (k : nat) (x : A) :
  (k < length a)%nat -> array_set a (Z.of_nat k) x = Ok (<[k := x]> a).
Proof.
  intros Hk. unfold array_set.
  destruct (Z.ltb_spec (Z.of_nat k) 0) as [Hneg|_]; [lia|].
  destruct (Z.ltb_spec (Z.of_nat k) (Z.of_nat (length a))) as [_|Hge]; [|lia].
  now rewrite Nat2Z.id.
Qed.

Lemma for_loop_S {S} (n : nat) (i : Z) (body : Z -> S -> result S) (s : S) :
  for_loop (Datatypes.S n) i body s = body i s ≫= for_loop n (i + 1) body.
Proof. reflexivity. Qed.

(** A loop whose body keeps an invariant indexed by the counter runs to
    its end and establishes the invariant at the final count. *)
Lemma for_loop_invariant {S} (body : Z -> S -> result S)
    (Inv : nat -> S -> Prop) (n : nat) :
  forall (k : nat) (s : S),
    Inv k s ->
    (forall (j : nat) (t : S), (k <= j < k + n)%nat -> Inv j t ->
       exists t', body (Z.of_nat j) t = Ok t' /\ Inv (Datatypes.S j) t') ->
    exists s', for_loop n (Z.of_nat k) body s = Ok s' /\ Inv (k + n)%nat s'.
Proof.
  induction n as [|n IH]; intros k s Hinv Hstep.
  - exists s. split; [reflexivity|]. now rewrite Nat.add_0_r.
  - destruct (Hstep k s ltac:(lia) Hinv) as (t & Hb & Ht).
    destruct (IH (Datatypes.S k) t Ht) as (s' & Hl & Hs').
    + intros j u Hj Hu. apply Hstep; [lia|exact Hu].
    + exists s'. split.
      * rewrite for_loop_S, Hb. cbn.
        replace (Z.of_nat k + 1) with (Z.of_nat (Datatypes.S k)) by lia.
        exact Hl.
      * now replace (k + Datatypes.S n)%nat with (Datatypes.S k + n)%nat by lia.
Qed.

(** ** The tessellated block mesh *)

Section TessellationFacts.
Context {F mesh_t : Type} `{FloatOps F} `{VolumeOps F mesh_t}.
Implicit Types (vertices : list (voxel_vertex_t F)) (ret : Ccl.Mesh F).

Lemma add_corner_ok vertices (i j : nat) ret (v : voxel_vertex_t F) :
  vertices !! (4 * i + j)%nat = Some v ->
  add_corner vertices (Z.of_nat i) (Z.of_nat j) ret
  = Ok (Ccl.add_vertex ret (pos3 v)).
Proof.
  intros Hv. unfold add_corner.
  replace (Z.of_nat i * 4 + Z.of_nat j) with (Z.of_nat (4 * i + j)) by lia.
  now rewrite (array_get_ok _ _ _ Hv).
Qed.

Lemma take_4_more vertices (k : nat) (a b c d : voxel_vertex_t F) :
  vertices !! (4 * k)%nat = Some a ->
  vertices !! (4 * k + 1)%nat = Some b ->
  vertices !! (4 * k + 2)%nat = Some c ->
  vertices !! (4 * k + 3)%nat = Some d ->
  take (4 * Datatypes.S k) vertices = take (4 * k) vertices ++ [a; b; c; d].
Proof.
  intros Ha Hb Hc Hd.
  replace (4 * Datatypes.S k)%nat
    with (Datatypes.S (Datatypes.S (Datatypes.S (Datatypes.S (4 * k))))) by lia.
  rewrite (take_S_r _ _ d) by (rewrite <- Hd; f_equal; lia).
  rewrite (take_S_r _ _ c) by (rewrite <- Hc; f_equal; lia).
  rewrite (take_S_r _ _ b) by (rewrite <- Hb; f_equal; lia).
  rewrite (take_S_r _ _ a) by exact Ha.
  now rewrite <- !app_assoc.
Qed.

Lemma add_quad_ok vertices (nb : Z) (k : nat) :
  (4 * Datatypes.S k <= length vertices)%nat ->
  add_quad vertices (Z.of_nat k) (quads_mesh vertices nb k)
  = Ok (quads_mesh vertices nb (Datatypes.S k)).
Proof.
  intros Hlen.
  destruct (lookup_lt_is_Some_2 vertices (4 * k + 0)%nat ltac:(lia)) as [a Ha].
  destruct (lookup_lt_is_Some_2 vertices (4 * k + 1)%nat ltac:(lia)) as [b Hb].
  destruct (lookup_lt_is_Some_2 vertices (4 * k + 2)%nat ltac:(lia)) as [c Hc].
  destruct (lookup_lt_is_Some_2 vertices (4 * k + 3)%nat ltac:(lia)) as [d Hd].
  unfold add_quad. cbn [for_loop].
  change 0 with (Z.of_nat 0) at 1.
  rewrite (add_corner_ok _ _ _ _ _ Ha). cbn [mbind result_bind].
  change (Z.of_nat 0 + 1) with (Z.of_nat 1).
  rewrite (add_corner_ok _ _ _ _ _ Hb). cbn [mbind result_bind].
  change (Z.of_nat 1 + 1) with (Z.of_nat 2).
  rewrite (add_corner_ok _ _ _ _ _ Hc). cbn [mbind result_bind].
  change (Z.of_nat 2 + 1) with (Z.of_nat 3).
  rewrite (add_corner_ok _ _ _ _ _ Hd). cbn [mbind result_bind].
  f_equal. rewrite Nat.add_0_r in Ha.
  unfold quads_mesh, Ccl.add_triangle, Ccl.add_vertex.
  cbn [Ccl.subdivision_type Ccl.reserved_verts Ccl.reserved_tris Ccl.verts
       Ccl.triangles Ccl.attributes Ccl.used_shaders].
  f_equal.
  - rewrite (take_4_more _ _ _ _ _ _ Ha Hb Hc Hd), fmap_app.
    rewrite <- !app_assoc. reflexivity.
  - rewrite seq_S, flat_map_app, <- app_assoc. reflexivity.
Qed.

Lemma quads_loop_ok vertices (nb : Z) (n : nat) :
  (4 * n <= length vertices)%nat ->
  for_loop n 0 (add_quad vertices) (quads_mesh vertices nb 0)
  = Ok (quads_mesh vertices nb n).
Proof.
  intros Hlen.
  destruct (for_loop_invariant (add_quad vertices)
              (fun k m => m = quads_mesh vertices nb k) n 0
              (quads_mesh vertices nb 0) eq_refl) as (m & Hm & ->).
  - intros j t Hj ->. eexists. split; [|reflexivity].
    apply add_quad_ok. lia.
  - exact Hm.
Qed.

Lemma quad_triangles_length (n : nat) :
  length (flat_map quad_triangles (seq 0 n)) = (2 * n)%nat.
Proof.
  induction n as [|n IH]; [reflexivity|].
  rewrite seq_S, flat_map_app, length_app, IH. cbn. lia.
Qed.

Lemma colors_upto_S vertices (n k : nat) :
  (k < 6 * n)%nat ->
  <[k := corner_color vertices k]> (colors_upto vertices n k)
  = colors_upto vertices n (Datatypes.S k).
Proof.
  intros Hk. unfold colors_upto.
  rewrite insert_app_r_alt by (rewrite length_fmap, length_seq; lia).
  rewrite length_fmap, length_seq, Nat.sub_diag.
  replace (6 * n - k)%nat with (Datatypes.S (6 * n - Datatypes.S k)) by lia.
  rewrite seq_S, fmap_app, <- app_assoc. reflexivity.
Qed.

Lemma colors_upto_length vertices (n k : nat) :
  (k <= 6 * n)%nat -> length (colors_upto vertices n k) = (6 * n)%nat.
Proof.
  intros Hk. unfold colors_upto.
  rewrite length_app, length_fmap, length_seq, length_replicate. lia.
Qed.

Lemma set_corner_color_ok vertices (nb : Z) (n k : nat) :
  (4 * n <= length vertices)%nat -> (k < 6 * n)%nat ->
  set_corner_color vertices 0 (Z.of_nat k)
    (Ccl.set_attributes (quads_mesh vertices nb n)
       [col_attribute (colors_upto vertices n k)])
  = Ok (Ccl.set_attributes (quads_mesh vertices nb n)
          [col_attribute (colors_upto vertices n (Datatypes.S k))]).
Proof.
  intros Hlen Hk.
  assert (Hq : Z.quot (Z.of_nat k) 6 * 4 = Z.of_nat (k / 6 * 4)).
  { rewrite Z.quot_div_nonneg by lia.
    rewrite Nat2Z.inj_mul, Nat2Z.inj_div. reflexivity. }
  assert (Hidx : (k / 6 * 4 < length vertices)%nat).
  { assert (k / 6 < n)%nat by (apply Nat.Div0.div_lt_upper_bound; lia). lia. }
  destruct (lookup_lt_is_Some_2 vertices _ Hidx) as [v Hv].
  rewrite <- (colors_upto_S vertices n k Hk).
  unfold corner_color. rewrite Hv. cbn [from_option].
  unfold set_corner_color. rewrite Hq, (array_get_ok _ _ _ Hv).
  cbn [mbind result_bind].
  unfold Ccl.attr_store. cbn [Ccl.attributes Ccl.set_attributes lookup list_lookup].
  cbn [col_attribute Ccl.attr_data].
  rewrite array_set_ok by (rewrite colors_upto_length; lia).
  reflexivity.
Qed.

Lemma colors_loop_ok vertices (nb : Z) (n : nat) :
  (4 * n <= length vertices)%nat ->
  for_loop (6 * n) 0 (set_corner_color vertices 0)
    (Ccl.set_attributes (quads_mesh vertices nb n)
       [col_attribute (colors_upto vertices n 0)])
  = Ok (Ccl.set_attributes (quads_mesh vertices nb n)
          [col_attribute (colors_upto vertices n (6 * n))]).
Proof.
  intros Hlen.
  destruct (for_loop_invariant (set_corner_color vertices 0)
              (fun k m => m = Ccl.set_attributes (quads_mesh vertices nb n)
                                [col_attribute (colors_upto vertices n k)])
              (6 * n) 0 _ eq_refl) as (m & Hm & ->).
  - intros j t Hj ->. eexists. split; [|reflexivity].
    apply set_corner_color_ok; [exact Hlen|lia].
  - exact Hm.
Qed.

(** What [create_mesh_for_block] returns, in terms of what the
    tessellator wrote. *)
Lemma create_mesh_for_block_eq (mesh : mesh_t) (block_pos : block_pos_t)
    (nb : Z) vertices :
  mesh_generate_vertices mesh block_pos 0 calloc_vertices = (nb, vertices) ->
  0 < nb ->
  nb * 4 <= Z.of_nat (length vertices) ->
  create_mesh_for_block mesh block_pos = Ok (block_mesh vertices (Z.to_nat nb)).
Proof.
  intros Hgen Hnb Hlen. unfold create_mesh_for_block. rewrite Hgen.
  destruct (Z.eqb_spec nb 0) as [->|_]; [lia|].
  set (n := Z.to_nat nb).
  assert (Hn : nb = Z.of_nat n) by lia.
  assert (Hlen' : (4 * n <= length vertices)%nat) by lia.
  change (Ccl.reserve_mesh _ (nb * 4) (nb * 2)) with (quads_mesh vertices nb 0).
  rewrite (quads_loop_ok vertices nb n Hlen'). cbn [mbind result_bind].
  unfold Ccl.attributes_add.
  cbn [Ccl.attributes quads_mesh Ccl.element_count Ccl.triangles length].
  rewrite quad_triangles_length.
  replace (Z.to_nat (nb * 6)) with (6 * n)%nat by lia.
  replace (3 * (2 * n))%nat with (6 * n - 0)%nat by lia.
  change (Ccl.set_attributes ?m ([] ++ [?a])) with (Ccl.set_attributes m [a]).
  etransitivity; [apply (colors_loop_ok vertices nb n Hlen')|].
  f_equal. unfold block_mesh, colors_upto. rewrite <- Hn.
  now rewrite Nat.sub_diag, app_nil_r.
Qed.

(** A block without quads gives the bare mesh. *)
Lemma create_mesh_for_block_empty (mesh : mesh_t) (block_pos : block_pos_t)
    vertices :
  mesh_generate_vertices mesh block_pos 0 calloc_vertices = (0, vertices) ->
  create_mesh_for_block mesh block_pos = Ok empty_block_mesh.
Proof.
  intros Hgen. unfold create_mesh_for_block. rewrite Hgen. reflexivity.
Qed.

Lemma quad_triangles_lookup (n i : nat) :
  (i < n)%nat ->
  flat_map quad_triangles (seq 0 n) !! (2 * i)%nat
  = Some (triangle (Z.of_nat i * 4 + 0) (Z.of_nat i * 4 + 1) (Z.of_nat i * 4 + 2))
  /\ flat_map quad_triangles (seq 0 n) !! (2 * i + 1)%nat
  = Some (triangle (Z.of_nat i * 4 + 2) (Z.of_nat i * 4 + 3) (Z.of_nat i * 4 + 0)).
Proof.
  induction n as [|n IH]; intros Hi; [lia|].
  rewrite seq_S, flat_map_app.
  destruct (decide (i < n)%nat) as [Hlt|Hge].
  - rewrite !lookup_app_l by (rewrite quad_triangles_length; lia).
    exact (IH Hlt).
  - assert (i = n) as -> by lia.
    rewrite !lookup_app_r by (rewrite quad_triangles_length; lia).
    rewrite quad_triangles_length.
    replace (2 * n - 2 * n)%nat with 0%nat by lia.
    replace (2 * n + 1 - 2 * n)%nat with 1%nat by lia.
    split; reflexivity.
Qed.

Lemma corner_color_of_quad vertices (i c : nat) (v : voxel_vertex_t F) :
  vertices !! (4 * i)%nat = Some v -> (c < 6)%nat ->
  corner_color vertices (6 * i + c) = rgba v.
Proof.
  intros Hv Hc. unfold corner_color.
  replace ((6 * i + c) / 6 * 4)%nat with (4 * i)%nat.
  - now rewrite Hv.
  - replace (6 * i + c)%nat with (c + i * 6)%nat by lia.
    rewrite Nat.div_add by lia. rewrite (Nat.div_small c 6) by lia. lia.
Qed.

End TessellationFacts.

(** C9. A block whose tessellation yields [nb > 0] quads gets a mesh of
    exactly [4 * nb] vertices and [2 * nb] triangles and one corner colour
    attribute of [6 * nb] entries: quad [i] contributes vertices
    [4i .. 4i+3], copied from the tessellator's output, and the triangles
    [(4i, 4i+1, 4i+2)] and [(4i+2, 4i+3, 4i)], stored at positions [2i] and
    [2i+1]; each of the three corners of both triangles carries the colour
    of the tessellator's vertex [4i].  The tessellator's buffer must hold
    the [4 * nb] vertices it reports. *)
Theorem create_mesh_for_block_quads
    {F mesh_t : Type} `{FloatOps F} `{VolumeOps F mesh_t}
    (mesh : mesh_t) (block_pos : block_pos_t)
    (nb : Z) (vertices : list (voxel_vertex_t F)) :
  mesh_generate_vertices mesh block_pos 0 calloc_vertices = (nb, vertices) ->
  0 < nb ->
  nb * 4 <= Z.of_nat (length vertices) ->
  exists (m : Ccl.Mesh F) (col : Ccl.Attribute),
    create_mesh_for_block mesh block_pos = Ok m
    /\ Z.of_nat (length (Ccl.verts m)) = 4 * nb
    /\ Z.of_nat (length (Ccl.triangles m)) = 2 * nb
    /\ Ccl.attributes m = [col]
    /\ Ccl.attr_name col = "Col"%string
    /\ Ccl.attr_element col = Ccl.ATTR_ELEMENT_CORNER_BYTE
    /\ Z.of_nat (length (Ccl.attr_data col)) = 6 * nb
    /\ forall i : nat, Z.of_nat i < nb ->
         (forall j : nat, (j < 4)%nat ->
            exists v, vertices !! (4 * i + j)%nat = Some v
                      /\ Ccl.verts m !! (4 * i + j)%nat = Some (pos3 v))
         /\ Ccl.triangles m !! (2 * i)%nat
            = Some (triangle (Z.of_nat i * 4 + 0) (Z.of_nat i * 4 + 1)
                             (Z.of_nat i * 4 + 2))
         /\ Ccl.triangles m !! (2 * i + 1)%nat
            = Some (triangle (Z.of_nat i * 4 + 2) (Z.of_nat i * 4 + 3)
                             (Z.of_nat i * 4 + 0))
         /\ exists v0, vertices !! (4 * i)%nat = Some v0
              /\ forall t c : nat,
                   (t = 2 * i \/ t = 2 * i + 1)%nat -> (c < 3)%nat ->
                   Ccl.attr_data col !! (3 * t + c)%nat = Some (rgba v0).
Proof.
  intros Hgen Hnb Hlen.
  set (n := Z.to_nat nb).
  exists (block_mesh vertices n),
         (col_attribute (corner_color vertices <$> seq 0 (6 * n))).
  split; [exact (create_mesh_for_block_eq mesh block_pos nb vertices Hgen Hnb Hlen)|].
  cbn [block_mesh Ccl.set_attributes quads_mesh Ccl.verts Ccl.triangles
       Ccl.attributes col_attribute Ccl.attr_name Ccl.attr_element Ccl.attr_data].
  rewrite length_fmap, length_take, quad_triangles_length, length_fmap, length_seq.
  repeat split; try lia.
  - intros j Hj.
    destruct (lookup_lt_is_Some_2 vertices (4 * i + j)%nat ltac:(lia)) as [v Hv].
    exists v. split; [exact Hv|].
    rewrite list_lookup_fmap, lookup_take_lt by lia. now rewrite Hv.
  - apply quad_triangles_lookup. lia.
  - apply quad_triangles_lookup. lia.
  - destruct (lookup_lt_is_Some_2 vertices (4 * i)%nat ltac:(lia)) as [v0 Hv0].
    exists v0. split; [exact Hv0|].
    intros t c Ht Hc.
    assert (exists c', (c' < 6)%nat /\ (3 * t + c = 6 * i + c')%nat) as (c' & Hc' & ->).
    { destruct Ht as [-> | ->]; [exists c | exists (3 + c)%nat]; lia. }
    rewrite list_lookup_fmap, lookup_seq_lt by lia. cbn.
    f_equal. now apply corner_color_of_quad.
Qed.

(** ** The assembled scene *)

Section SceneFacts.
Context {F mesh_t : Type}.
Context `{FloatOps F} `{VecOps F} `{VolumeOps F mesh_t}.

Lemma create_mesh_for_block_total (gmesh : mesh_t) (block_pos : block_pos_t) :
  tessellation_fits gmesh block_pos ->
  exists m, create_mesh_for_block gmesh block_pos = Ok m.
Proof.
  unfold tessellation_fits.
  destruct (mesh_generate_vertices gmesh block_pos 0 calloc_vertices)
    as [nb vertices] eqn:Hgen.
  intros Hfit.
  destruct (Z.lt_trichotomy nb 0) as [Hneg | [-> | Hpos]].
  - unfold create_mesh_for_block. rewrite Hgen.
    destruct (Z.eqb_spec nb 0) as [->|_]; [lia|].
    replace (Z.to_nat nb) with 0%nat by lia.
    replace (Z.to_nat (nb * 6)) with 0%nat by lia.
    cbn. eauto.
  - eexists. eapply create_mesh_for_block_empty, Hgen.
  - eexists. eapply create_mesh_for_block_eq; eauto.
Qed.

Lemma scene_with_objects_app (sc : Scene F) (o : Object F) (objs : list (Object F)) :
  scene_with_objects (scene_with_objects sc [o]) objs
  = scene_with_objects sc (o :: objs).
Proof.
  unfold scene_with_objects. cbn. f_equal; now rewrite <- app_assoc.
Qed.

Lemma scene_add_blocks_inv (gmesh : mesh_t) (blocks : list block_pos_t) :
  forall sc sc' : Scene F,
    scene_add_blocks gmesh (shader_tag_update create_cube_shader) blocks sc
    = Ok sc' ->
    exists objs, sc' = scene_with_objects sc objs
                 /\ Forall2 (object_of_block gmesh) blocks objs.
Proof.
  induction blocks as [|bp rest IH]; intros sc sc' Hrun; cbn in Hrun.
  - inversion Hrun; subst. exists []. split; [|constructor].
    destruct sc'. unfold scene_with_objects. cbn. now rewrite !app_nil_r.
  - destruct (create_mesh_for_block gmesh bp) as [m|f] eqn:Hm; [|discriminate].
    cbn in Hrun. apply IH in Hrun as (objs & -> & Hall).
    exists (block_object m bp :: objs). split.
    + rewrite <- scene_with_objects_app. reflexivity.
    + constructor; [|exact Hall]. exists m. split; [exact Hm|reflexivity].
Qed.

Lemma scene_add_blocks_total (gmesh : mesh_t) (blocks : list block_pos_t) :
  Forall (tessellation_fits gmesh) blocks ->
  forall sc : Scene F,
    exists sc', scene_add_blocks gmesh (shader_tag_update create_cube_shader)
                  blocks sc = Ok sc'.
Proof.
  induction 1 as [|bp rest Hfit _ IH]; intros sc; cbn.
  - eauto.
  - destruct (create_mesh_for_block_total gmesh bp Hfit) as [m ->]. cbn.
    apply IH.
Qed.

Lemma deref_session_ok (st : World F) (s : Session F) :
  g_session st = Some s -> sid s ∈ live st ->
  deref_session st = Ok (s, st).
Proof.
  intros Hs Hlive. unfold deref_session, get, mbind, M_bind. rewrite Hs.
  destruct (decide (sid s ∈ live st)); [reflexivity|contradiction].
Qed.

Lemma deref_session_inv (st st' : World F) (s : Session F) :
  deref_session st = Ok (s, st') ->
  g_session st = Some s /\ sid s ∈ live st /\ st' = st.
Proof.
  unfold deref_session, get, mbind, M_bind.
  destruct (g_session st) as [s0|]; [|discriminate].
  destruct (decide (sid s0 ∈ live st)); [|discriminate].
  intros [= -> ->]. auto.
Qed.

Lemma create_scene_inv (goxel : goxel_t F mesh_t) (w h : Z)
    (st st' : World F) (sc : Scene F) :
  create_scene goxel w h st = Ok (sc, st') ->
  exists s,
    g_session st = Some s /\ sid s ∈ live st
    /\ st' = frame_world st (g_session st) (g_buffer_params st) (last_key st)
               (live st) (next_sid st) [SceneNew w h]
    /\ scene_built goxel w h (session_device s) sc.
Proof.
  unfold create_scene. intros Hrun.
  unfold mbind, M_bind in Hrun.
  destruct (deref_session st) as [[s st1]|f] eqn:Hd; [|discriminate].
  apply deref_session_inv in Hd as (Hs & Hlive & ->).
  exists s. unfold emit, lift in Hrun.
  match type of Hrun with
  | context [scene_add_blocks ?g ?sh ?b ?sc0] =>
      destruct (scene_add_blocks g sh b sc0) as [sc1|f] eqn:Hblocks;
        [|discriminate]
  end.
  apply scene_add_blocks_inv in Hblocks as (objs & -> & Hall).
  destruct (get_light_dir goxel) as [[lx ly] lz].
  cbn in Hrun. injection Hrun as <- <-.
  unfold scene_built. repeat split; try reflexivity; try assumption.
Qed.

Lemma create_scene_total (goxel : goxel_t F mesh_t) (w h : Z)
    (st : World F) (s : Session F) :
  g_session st = Some s -> sid s ∈ live st ->
  Forall (tessellation_fits (render_mesh goxel)) (scene_blocks goxel) ->
  exists sc,
    create_scene goxel w h st
    = Ok (sc, frame_world st (g_session st) (g_buffer_params st) (last_key st)
                (live st) (next_sid st) [SceneNew w h]).
Proof.
  intros Hs Hlive Hfit. unfold create_scene.
  unfold mbind, M_bind. rewrite (deref_session_ok st s Hs Hlive).
  unfold emit, lift.
  match goal with
  | |- context [scene_add_blocks ?g ?sh ?b ?sc0] =>
      destruct (scene_add_blocks_total g b Hfit sc0) as [sc1 ->]
  end.
  destruct (get_light_dir goxel) as [[lx ly] lz].
  eexists. reflexivity.
Qed.

End SceneFacts.

(** ** The per-frame controller *)

(** Runs the monad's plumbing; the calls into [create_scene] stay. *)
Ltac run_M :=
  cbv beta iota zeta delta
    [mbind M_bind mret M_ret get crash lift emit
     set_g_session set_g_buffer_params set_g_session_params set_last_key
     set_heap deref_session Session_new Session_delete
     session_set_scene session_reset session_start session_draw
     session_get_status];
  cbn [g_session g_buffer_params g_session_params last_key live next_sid trace
       sid session_params session_device scene reset_with started].

Section ControllerFacts.
Context {F mesh_t : Type}.
Context `{FloatOps F} `{VecOps F} `{VolumeOps F mesh_t}.
Context `{ChecksumOps} `{DeviceApi}.

Lemma rebuild_ok (goxel : goxel_t F mesh_t) (key w h : Z) (st : World F) :
  Forall (tessellation_fits (render_mesh goxel)) (scene_blocks goxel) ->
  exists sc,
    rebuild goxel key w h st
    = Ok (tt, frame_world st (Some (built_session st sc)) (g_buffer_params st)
                key (next_sid st :: deleted_live st) (Datatypes.S (next_sid st))
                (delete_events st ++ build_events st w h))
    /\ scene_built goxel w h (device (g_session_params st)) sc.
Proof.
  intros Hfit. destruct st as [gs bp sp lk lv n tr].
  unfold rebuild, deleted_live, delete_events, build_events, built_session,
    frame_world.
  destruct gs as [old|]; run_M.
  all: match goal with
       | |- context [create_scene ?g ?w1 ?h1 ?st1] =>
           destruct (create_scene_total g w1 h1 st1 _ eq_refl
                       ltac:(apply elem_of_cons; left; reflexivity) Hfit)
             as [sc Hsc];
           pose proof (create_scene_inv _ _ _ _ _ _ Hsc) as (s' & Hs' & _ & _ & Hbuilt);
           rewrite Hsc
       end.
  all: unfold frame_world; run_M.
  all: repeat (match goal with
               | |- context [decide (?a ∈ ?a :: ?l)] =>
                   destruct (decide (a ∈ a :: l)) as [_|Hn];
                     [|exfalso; apply Hn, elem_of_cons; left; reflexivity]
               end; run_M).
  all: injection Hs' as <-.
  all: exists sc; split; [|exact Hbuilt].
  all: do 3 f_equal; rewrite <- ?app_assoc; reflexivity.
Qed.

Lemma render_with_key_same (goxel : goxel_t F mesh_t) (key w h : Z)
    (st : World F) :
  key = last_key st -> session_valid st ->
  render_with_key goxel key w h st
  = Ok (tt, frame_world st (g_session st) (g_buffer_params st) (last_key st)
              (live st) (next_sid st)
              (match g_session st with
               | Some s => draw_events s (g_buffer_params st)
               | None => []
               end)).
Proof.
  intros Hkey Hvalid. destruct st as [gs bp sp lk lv n tr].
  unfold session_valid in Hvalid. cbn in Hkey, Hvalid. subst key.
  unfold render_with_key, frame_world, draw_events. run_M.
  destruct (decide (lk ≠ lk)) as [Hne|_]; [contradiction|].
  destruct gs as [s|]; run_M.
  - destruct (decide (sid s ∈ lv)) as [_|Hn]; [|contradiction]. run_M.
    destruct (decide (sid s ∈ lv)) as [_|Hn]; [|contradiction]. run_M.
    do 3 f_equal. rewrite <- ?app_assoc. reflexivity.
  - now rewrite app_nil_r.
Qed.

Lemma render_with_key_changed (goxel : goxel_t F mesh_t) (key w h : Z)
    (st : World F) :
  key <> last_key st ->
  Forall (tessellation_fits (render_mesh goxel)) (scene_blocks goxel) ->
  exists sc,
    render_with_key goxel key w h st
    = Ok (tt, frame_world st (Some (built_session st sc)) (g_buffer_params st)
                key (next_sid st :: deleted_live st) (Datatypes.S (next_sid st))
                (delete_events st ++ build_events st w h
                 ++ draw_events (built_session st sc) (g_buffer_params st)))
    /\ scene_built goxel w h (device (g_session_params st)) sc.
Proof.
  intros Hkey Hfit.
  destruct (rebuild_ok goxel key w h st Hfit) as (sc & Hre & Hbuilt).
  exists sc. split; [|exact Hbuilt].
  unfold render_with_key. unfold mbind at 1. unfold M_bind at 1, get at 1.
  destruct (decide (key ≠ last_key st)) as [_|Hn]; [|contradiction].
  unfold mbind at 1. unfold M_bind at 1. rewrite Hre.
  unfold frame_world, draw_events, built_session. run_M.
  repeat (destruct (decide (next_sid st ∈ next_sid st :: deleted_live st))
            as [_|Hn];
          [|exfalso; apply Hn, elem_of_cons; left; reflexivity]; run_M).
  do 3 f_equal. rewrite <- !app_assoc. reflexivity.
Qed.

Lemma cycles_render_eq (goxel : goxel_t F mesh_t) (rect : Z * Z * Z * Z)
    (st : World F) :
  cycles_render goxel rect st
  = render_with_key goxel (get_render_key goxel) rect.1.2 rect.2
      (frame_world st (g_session st) (rect_buffer_params rect) (last_key st)
         (live st) (next_sid st) (frame_setup rect)).
Proof.
  destruct rect as [[[x y] w] h]. destruct st as [gs bp sp lk lv n tr].
  unfold cycles_render, frame_world, frame_setup, rect_buffer_params.
  run_M. cbn [fst snd width height].
  rewrite <- !app_assoc. reflexivity.
Qed.

End ControllerFacts.

(** ** Initialisation and the render key *)

Section InitAndKey.
Context {F mesh_t : Type}.
Context `{FloatOps F} `{VolumeOps F mesh_t} `{ChecksumOps} `{DeviceApi}.

Lemma select_device_none (t : DeviceType) (devices : list DeviceInfo)
    (d0 : DeviceInfo) :
  Forall (fun d => dev_type d <> t) devices ->
  select_device t devices d0 = d0.
Proof.
  induction 1 as [|d rest Hd _ IH]; cbn; [reflexivity|].
  destruct (decide (t = dev_type d)) as [Heq|_]; [|exact IH].
  now symmetry in Heq.
Qed.

Lemma select_device_first (t : DeviceType) (before after : list DeviceInfo)
    (d d0 : DeviceInfo) :
  Forall (fun d => dev_type d <> t) before -> dev_type d = t ->
  select_device t (before ++ d :: after) d0 = d.
Proof.
  intros Hbefore Hd.
  induction Hbefore as [|b rest Hb _ IH]; cbn.
  - destruct (decide (t = dev_type d)) as [_|Hne]; [reflexivity|].
    now symmetry in Hd.
  - destruct (decide (t = dev_type b)) as [Heq|_]; [|exact IH].
    now symmetry in Heq.
Qed.

Lemma to_uint64_range (z : Z) : 0 <= to_uint64 z < 2 ^ 64.
Proof. unfold to_uint64. apply Z.mod_pos_bound. lia. Qed.

Lemma to_uint64_id (z : Z) : 0 <= z < 2 ^ 64 -> to_uint64 z = z.
Proof. intros Hz. unfold to_uint64. now apply Z.mod_small. Qed.

(** A [float[4][4]] is [sizeof(float[4][4])] = 64 bytes when a float is
    four. *)
Lemma mat4_bytes_length (m : mat4 F) :
  (forall x : F, length (float_bytes x) = 4%nat) ->
  length (mat4_bytes m) = 64%nat.
Proof.
  intros H4. destruct m as [[[r0 r1] r2] r3].
  destruct r0 as [[[? ?] ?] ?], r1 as [[[? ?] ?] ?],
           r2 as [[[? ?] ?] ?], r3 as [[[? ?] ?] ?].
  unfold mat4_bytes. cbn. rewrite !length_app, !H4. reflexivity.
Qed.

End InitAndKey.

(** * The claims *)

(** The scenario of section 8: one voxel at the origin, viewport 800x600.
    The first frame builds one object of 24 vertices and 12 triangles
    (six quads), two shaders and one light. *)
Example one_voxel_first_frame :
  exists st s sc,
    (cycles_init [Fixture.cpu_device]
       ≫= λ _, cycles_render Fixture.one_voxel (0, 0, 800, 600)) Fixture.world0
    = Ok (tt, st)
    /\ g_session st = Some s /\ scene s = Some sc
    /\ (λ o, (length (Ccl.verts (obj_mesh o)), length (Ccl.triangles (obj_mesh o))))
         <$> objects sc = [(24%nat, 12%nat)]
    /\ shader_name <$> shaders sc = ["cubeShader"; "lightShader"]%string
    /\ light_type <$> lights sc = [LIGHT_DISTANT]
    /\ (cam_width (scene_camera sc), cam_height (scene_camera sc)) = (800, 600).
Proof.
  eexists. eexists. eexists.
  split; [vm_compute; reflexivity|].
  split; [reflexivity|]. split; [reflexivity|].
  repeat split.
Qed.

Lemma create_mesh_for_block_quads_witness :
  exists m col,
    create_mesh_for_block (render_mesh Fixture.one_voxel) (0, 0, 0) = Ok m
    /\ length (Ccl.verts m) = 24%nat
    /\ length (Ccl.triangles m) = 12%nat
    /\ Ccl.attributes m = [col]
    /\ length (Ccl.attr_data col) = 36%nat.
Proof.
  destruct (create_mesh_for_block_quads
              (render_mesh Fixture.one_voxel) (0, 0, 0) 6
              (Fixture.cube_quads ++ drop 24 calloc_vertices))
    as (m & col & Hm & Hv & Ht & Ha & _ & _ & Hd & _).
  - reflexivity.
  - lia.
  - vm_compute. discriminate.
  - exists m, col. repeat split; first [exact Hm | exact Ha | lia].
Defined.

(** C1 (as the code has it).  [create_scene] adds one mesh and one object
    for every block position the iterator yields, in order, whether or not
    the block has a visible face: the scene has as many objects, and as
    many meshes, as there are blocks visited.  For a block whose
    tessellation yields no quad the tessellator's result is empty, and the
    object added for it carries the bare mesh: no vertex, no triangle, no
    colour attribute. *)
Theorem create_scene_object_per_block
    {F mesh_t : Type} `{FloatOps F} `{VecOps F} `{VolumeOps F mesh_t}
    (goxel : goxel_t F mesh_t) (w h : Z) (st : World F) (s : Session F) :
  g_session st = Some s -> sid s ∈ live st ->
  Forall (tessellation_fits (render_mesh goxel)) (scene_blocks goxel) ->
  exists sc st',
    create_scene goxel w h st = Ok (sc, st')
    /\ length (objects sc) = length (scene_blocks goxel)
    /\ length (meshes sc) = length (scene_blocks goxel)
    /\ forall (k : nat) (block_pos : block_pos_t),
         scene_blocks goxel !! k = Some block_pos ->
         exists m,
           create_mesh_for_block (render_mesh goxel) block_pos = Ok m
           /\ objects sc !! k = Some (block_object m block_pos)
           /\ meshes sc !! k = Some (Ccl.push_used_shader m "cubeShader")
           /\ (block_quads (render_mesh goxel) block_pos = 0 ->
               m = empty_block_mesh
               /\ Ccl.verts m = [] /\ Ccl.triangles m = []
               /\ Ccl.attributes m = []).
Proof.
  intros Hs Hlive Hfit.
  destruct (create_scene_total goxel w h st s Hs Hlive Hfit) as [sc Hsc].
  destruct (create_scene_inv _ _ _ _ _ _ Hsc)
    as (s' & _ & _ & _ & Hmeshes & Hall & _).
  exists sc. eexists. split; [exact Hsc|].
  pose proof (Forall2_length _ _ _ Hall) as Hlen.
  split; [now symmetry|]. split; [now rewrite Hmeshes, length_fmap|].
  intros k block_pos Hk.
  destruct (Forall2_lookup_l _ _ _ _ _ Hall Hk) as (o & Ho & m & Hm & ->).
  exists m. split; [exact Hm|]. split; [exact Ho|].
  split; [now rewrite Hmeshes, list_lookup_fmap, Ho|].
  intros Hq. unfold block_quads in Hq.
  destruct (mesh_generate_vertices (render_mesh goxel) block_pos 0 calloc_vertices)
    as [nb vertices] eqn:Hgen.
  cbn in Hq. subst nb.
  rewrite (create_mesh_for_block_empty _ _ _ Hgen) in Hm.
  injection Hm as <-. repeat split.
Qed.

Lemma create_scene_object_per_block_witness :
  exists sc st',
    create_scene Fixture.hollow 800 600 Fixture.world1
    = Ok (sc, st')
    /\ length (objects sc) = 1%nat.
Proof.
  destruct (create_scene_object_per_block Fixture.hollow 800 600
              Fixture.world1 Fixture.session0)
    as (sc & st' & Hsc & Hobjs & _).
  - reflexivity.
  - cbn. apply elem_of_cons. left. reflexivity.
  - repeat constructor. vm_compute. discriminate.
  - exists sc, st'. split; [exact Hsc|exact Hobjs].
Defined.

(** C1, as the specification words it, fails: the block of
    [Fixture.hollow] has no visible face, and the scene built for it holds
    one object and one mesh, the mesh without a triangle. *)
Lemma create_scene_keeps_empty_block :
  block_quads (render_mesh Fixture.hollow) (0, 0, 0) = 0
  /\ exists sc st',
       create_scene Fixture.hollow 800 600 Fixture.world1
       = Ok (sc, st')
       /\ length (objects sc) = 1%nat
       /\ length (meshes sc) = 1%nat
       /\ (Ccl.triangles <$> meshes sc) = [[]].
Proof.
  split; [vm_compute; reflexivity|].
  eexists. eexists. split; [vm_compute; reflexivity|].
  repeat split.
Qed.

(** C2.  The render key is a 64-bit value: the content hash of the volume,
    folded by [crc64] first with the bytes of the camera's view matrix and
    then with those of its projection matrix, each fold seeded by the
    result before it.  It depends on nothing but the content hash and the
    bytes of the two matrices: inputs that agree on these give the same
    key.  The checksum and the content hash are 64-bit values, as their
    return type says. *)
Theorem get_render_key_fold
    {F mesh_t : Type} `{FloatOps F} `{VolumeOps F mesh_t} `{ChecksumOps}
    (goxel : goxel_t F mesh_t) :
  (forall (crc : Z) (data : list byte), 0 <= crc64 crc data < 2 ^ 64) ->
  0 <= mesh_get_key (render_mesh goxel) < 2 ^ 64 ->
  get_render_key goxel = render_key_spec goxel
  /\ get_render_key goxel
     = crc64 (crc64 (mesh_get_key (render_mesh goxel))
                    (mat4_bytes (view_mat (camera goxel))))
             (mat4_bytes (proj_mat (camera goxel)))
  /\ 0 <= get_render_key goxel < 2 ^ 64
  /\ forall goxel' : goxel_t F mesh_t,
       mesh_get_key (render_mesh goxel') = mesh_get_key (render_mesh goxel) ->
       mat4_bytes (view_mat (camera goxel')) = mat4_bytes (view_mat (camera goxel)) ->
       mat4_bytes (proj_mat (camera goxel')) = mat4_bytes (proj_mat (camera goxel)) ->
       get_render_key goxel' = get_render_key goxel.
Proof.
  intros Hcrc Hhash.
  assert (Hkey : get_render_key goxel
                 = crc64 (crc64 (mesh_get_key (render_mesh goxel))
                                (mat4_bytes (view_mat (camera goxel))))
                         (mat4_bytes (proj_mat (camera goxel)))).
  { unfold get_render_key.
    rewrite (to_uint64_id _ Hhash).
    rewrite (to_uint64_id _ (Hcrc _ _)).
    now rewrite (to_uint64_id _ (Hcrc _ _)). }
  split; [exact Hkey|]. split; [exact Hkey|].
  split; [rewrite Hkey; apply Hcrc|].
  intros goxel' Hh Hv Hp. unfold get_render_key. now rewrite Hh, Hv, Hp.
Qed.

Lemma get_render_key_fold_witness :
  get_render_key Fixture.one_voxel = render_key_spec Fixture.one_voxel
  /\ 0 <= get_render_key Fixture.one_voxel < 2 ^ 64.
Proof.
  destruct (get_render_key_fold Fixture.one_voxel) as (Hspec & _ & Hrange & _).
  - intros crc data. cbn [crc64 Fixture.crc64_bitwise].
    apply Z.mod_pos_bound. lia.
  - vm_compute. split; [discriminate|reflexivity].
  - split; [exact Hspec|exact Hrange].
Defined.

(** C7.  The camera matrix handed to the renderer is the transpose of the
    matrix obtained from the identity by, in order: the translation by the
    negated camera offset, the camera rotation with its first (scalar)
    component negated, the translation by the orbit distance along z, and
    the scale by (1, 1, -1).  The code negates the scalar by multiplying
    it by -1; that this is the negation is the one fact of float
    arithmetic assumed. *)
Theorem create_scene_camera_matrix
    {F mesh_t : Type} `{FloatOps F} `{VecOps F} `{VolumeOps F mesh_t}
    (goxel : goxel_t F mesh_t) (w h : Z) (st : World F) (s : Session F) :
  (forall x : F, f_mul x (f_of_int (-1)) = f_neg x) ->
  g_session st = Some s -> sid s ∈ live st ->
  Forall (tessellation_fits (render_mesh goxel)) (scene_blocks goxel) ->
  exists sc st',
    create_scene goxel w h st = Ok (sc, st')
    /\ cam_matrix (scene_camera sc) = camera_matrix_spec (camera goxel).
Proof.
  intros Hneg Hs Hlive Hfit.
  destruct (create_scene_total goxel w h st s Hs Hlive Hfit) as [sc Hsc].
  destruct (create_scene_inv _ _ _ _ _ _ Hsc)
    as (s' & _ & _ & _ & _ & _ & Hmat & _).
  exists sc. eexists. split; [exact Hsc|].
  rewrite Hmat. unfold camera_matrix, camera_matrix_spec, camera_steps.
  destruct (camera goxel) as [[[ox oy] oz] [[[r0 r1] r2] r3] d vm pm].
  cbn. unfold quat_copy. now rewrite Hneg.
Qed.

Lemma create_scene_camera_matrix_witness :
  exists sc st',
    create_scene Fixture.one_voxel 800 600 Fixture.world1 = Ok (sc, st')
    /\ cam_matrix (scene_camera sc) = camera_matrix_spec Fixture.orbit_camera.
Proof.
  apply (create_scene_camera_matrix Fixture.one_voxel 800 600
           Fixture.world1 Fixture.session0).
  - intros x. cbn. lia.
  - reflexivity.
  - cbn. apply elem_of_cons. left. reflexivity.
  - repeat constructor. vm_compute. discriminate.
Defined.

(** C8 (as the code has it).  [cycles_init] has no failure path: for every
    list of devices it returns, having set the session parameters to
    progressive, start resolution 64 and 20 samples and left every other
    global alone.  The device is the first enumerated device of the CPU
    type if there is one; if there is none it is the default-constructed
    device information, and no error is raised. *)
Theorem cycles_init_never_fails
    {F : Type} `{DeviceApi} (devices : list DeviceInfo) (st : World F) :
  exists st',
    cycles_init devices st = Ok (tt, st')
    /\ g_session_params st'
       = {| progressive := true; start_resolution := 64;
            device := select_device (type_from_string "CPU") devices
                        DeviceInfo_default;
            samples := 20 |}
    /\ g_session st' = g_session st /\ g_buffer_params st' = g_buffer_params st
    /\ last_key st' = last_key st /\ live st' = live st
    /\ next_sid st' = next_sid st /\ trace st' = trace st
    /\ (Forall (fun d => dev_type d <> type_from_string "CPU") devices ->
        device (g_session_params st') = DeviceInfo_default)
    /\ (forall before d after,
          devices = before ++ d :: after ->
          Forall (fun d => dev_type d <> type_from_string "CPU") before ->
          dev_type d = type_from_string "CPU" ->
          device (g_session_params st') = d).
Proof.
  unfold cycles_init. run_M.
  cbn [progressive start_resolution device samples].
  eexists. split; [reflexivity|].
  cbn [g_session g_buffer_params g_session_params last_key live next_sid trace
       device].
  repeat split.
  - intros Hnone. now apply select_device_none.
  - intros before d after -> Hbefore Hd. now apply select_device_first.
Qed.

(** C8, as the specification words it, fails: with a CUDA device as the
    only device, initialisation returns normally and the session
    parameters hold the default-constructed device information. *)
Lemma cycles_init_without_cpu_device :
  Forall (fun d => dev_type d <> type_from_string "CPU") [Fixture.cuda_device]
  /\ exists st',
       cycles_init [Fixture.cuda_device] Fixture.world0 = Ok (tt, st')
       /\ device (g_session_params st') = DeviceInfo_default
       /\ samples (g_session_params st') = 20.
Proof.
  split.
  - repeat constructor. discriminate.
  - eexists. split; [vm_compute; reflexivity|]. split; reflexivity.
Qed.

(** ** Whole frames *)

Section FrameFacts.
Context {F mesh_t : Type}.
Context `{FloatOps F} `{VecOps F} `{VolumeOps F mesh_t}.
Context `{ChecksumOps} `{DeviceApi}.

(** A frame whose key is the stored one. *)
Lemma cycles_render_same (goxel : goxel_t F mesh_t) (rect : Z * Z * Z * Z)
    (st : World F) :
  get_render_key goxel = last_key st -> session_valid st ->
  cycles_render goxel rect st
  = Ok (tt, frame_world st (g_session st) (rect_buffer_params rect) (last_key st)
              (live st) (next_sid st)
              (frame_setup rect
               ++ match g_session st with
                  | Some s => draw_events s (rect_buffer_params rect)
                  | None => []
                  end)).
Proof.
  intros Hkey Hvalid. rewrite cycles_render_eq.
  rewrite render_with_key_same; [|exact Hkey|exact Hvalid].
  unfold frame_world. cbn [g_session g_buffer_params g_session_params last_key
                           live next_sid trace].
  now rewrite <- app_assoc.
Qed.

(** A frame whose key is not the stored one. *)
Lemma cycles_render_changed (goxel : goxel_t F mesh_t) (rect : Z * Z * Z * Z)
    (st : World F) :
  get_render_key goxel <> last_key st ->
  Forall (tessellation_fits (render_mesh goxel)) (scene_blocks goxel) ->
  exists sc,
    let st0 := frame_world st (g_session st) (rect_buffer_params rect)
                 (last_key st) (live st) (next_sid st) [] in
    cycles_render goxel rect st
    = Ok (tt, frame_world st (Some (built_session st0 sc))
                (rect_buffer_params rect) (get_render_key goxel)
                (next_sid st :: deleted_live st) (Datatypes.S (next_sid st))
                (frame_setup rect ++ delete_events st
                 ++ build_events st0 rect.1.2 rect.2
                 ++ draw_events (built_session st0 sc) (rect_buffer_params rect)))
    /\ scene_built goxel rect.1.2 rect.2 (device (g_session_params st)) sc.
Proof.
  intros Hkey Hfit. rewrite cycles_render_eq.
  destruct (render_with_key_changed goxel (get_render_key goxel) rect.1.2 rect.2
              (frame_world st (g_session st) (rect_buffer_params rect)
                 (last_key st) (live st) (next_sid st) (frame_setup rect))
              Hkey Hfit)
    as (sc & Hrun & Hbuilt).
  exists sc. cbn zeta. split; [|exact Hbuilt].
  rewrite Hrun. unfold frame_world, built_session, build_events, deleted_live,
    delete_events.
  cbn [g_session g_buffer_params g_session_params last_key live next_sid trace].
  now rewrite <- app_assoc.
Qed.

(** The frames keep the controller usable: from a state whose session, if
    any, is alive, a frame returns, in such a state again, with the
    frame's key recorded and the session parameters untouched. *)
Lemma cycles_render_total (goxel : goxel_t F mesh_t) (rect : Z * Z * Z * Z)
    (st : World F) :
  session_valid st ->
  Forall (tessellation_fits (render_mesh goxel)) (scene_blocks goxel) ->
  exists st',
    cycles_render goxel rect st = Ok (tt, st')
    /\ session_valid st'
    /\ last_key st' = get_render_key goxel
    /\ g_session_params st' = g_session_params st.
Proof.
  intros Hvalid Hfit.
  destruct (decide (get_render_key goxel = last_key st)) as [Hsame|Hdiff].
  - eexists. split; [apply cycles_render_same; assumption|].
    unfold session_valid in *. cbn. auto.
  - destruct (cycles_render_changed goxel rect st Hdiff Hfit) as (sc & Hrun & _).
    cbn zeta in Hrun. eexists. split; [exact Hrun|].
    unfold session_valid. cbn. repeat split.
    apply elem_of_cons. left. reflexivity.
Qed.

End FrameFacts.

(** C3.  A frame whose render key equals the key recorded at the last
    build does not rebuild: the session object stays the same one,
    untouched; nothing is deleted or constructed; the stored key is kept;
    after the display set-up the only calls are the draw of the
    accumulated image and the status query.  A second such frame leaves
    the session as the first did. *)
Theorem cycles_render_same_key_no_rebuild
    {F mesh_t : Type} `{FloatOps F} `{VecOps F} `{VolumeOps F mesh_t}
    `{ChecksumOps}
    (goxel : goxel_t F mesh_t) (rect : Z * Z * Z * Z) (st : World F)
    (s : Session F) :
  g_session st = Some s -> sid s ∈ live st ->
  get_render_key goxel = last_key st ->
  exists st1 st2,
    cycles_render goxel rect st = Ok (tt, st1)
    /\ g_session st1 = Some s
    /\ last_key st1 = last_key st
    /\ live st1 = live st /\ next_sid st1 = next_sid st
    /\ trace st1 = trace st ++ frame_setup rect
                   ++ [SessionDraw (sid s) (rect_buffer_params rect);
                       ProgressGetStatus (sid s)]
    /\ cycles_render goxel rect st1 = Ok (tt, st2)
    /\ g_session st2 = g_session st1
    /\ last_key st2 = last_key st1
    /\ live st2 = live st1 /\ next_sid st2 = next_sid st1
    /\ trace st2 = trace st1 ++ frame_setup rect
                   ++ [SessionDraw (sid s) (rect_buffer_params rect);
                       ProgressGetStatus (sid s)].
Proof.
  intros Hs Hlive Hkey.
  assert (Hvalid : session_valid st) by (unfold session_valid; now rewrite Hs).
  pose proof (cycles_render_same goxel rect st Hkey Hvalid) as Hrun1.
  rewrite Hs in Hrun1.
  match type of Hrun1 with _ = Ok (_, ?w) => set (st1 := w) in * end.
  assert (Hrun2 : cycles_render goxel rect st1 = Ok (tt, _))
    by (apply cycles_render_same; [exact Hkey|exact Hlive]).
  eexists. eexists. split; [exact Hrun1|].
  do 5 (split; [reflexivity|]).
  split; [exact Hrun2|].
  repeat split.
Qed.

Lemma cycles_render_same_key_no_rebuild_witness :
  exists st1 st2,
    cycles_render Fixture.blank (0, 0, 800, 600) Fixture.world1 = Ok (tt, st1)
    /\ g_session st1 = Some Fixture.session0
    /\ cycles_render Fixture.blank (0, 0, 800, 600) st1 = Ok (tt, st2)
    /\ g_session st2 = g_session st1.
Proof.
  destruct (cycles_render_same_key_no_rebuild Fixture.blank (0, 0, 800, 600)
              Fixture.world1 Fixture.session0)
    as (st1 & st2 & H1 & Hs1 & _ & _ & _ & _ & H2 & Hs2 & _).
  - reflexivity.
  - cbn. apply elem_of_cons. left. reflexivity.
  - vm_compute. reflexivity.
  - exists st1, st2. repeat split; assumption.
Defined.

(** C5 (as the code has it).  On the first frame after initialisation (no
    session, stored key 0) a scene is built and a session started exactly
    when the computed render key is not 0, the initial stored value; when
    the key is 0 the frame makes the display set-up calls only and leaves
    the controller without a session. *)
Theorem cycles_render_first_frame
    {F mesh_t : Type} `{FloatOps F} `{VecOps F} `{VolumeOps F mesh_t}
    `{ChecksumOps}
    (goxel : goxel_t F mesh_t) (rect : Z * Z * Z * Z) (st : World F) :
  g_session st = None -> last_key st = 0 ->
  Forall (tessellation_fits (render_mesh goxel)) (scene_blocks goxel) ->
  exists st',
    cycles_render goxel rect st = Ok (tt, st')
    /\ (get_render_key goxel <> 0 ->
        exists new sc,
          g_session st' = Some new /\ sid new = next_sid st
          /\ scene new = Some sc /\ started new = true
          /\ last_key st' = get_render_key goxel
          /\ trace st'
             = trace st ++ frame_setup rect
               ++ [SessionNew (next_sid st) (g_session_params st);
                   SceneNew rect.1.2 rect.2;
                   SessionReset (next_sid st) (rect_buffer_params rect)
                                (samples (g_session_params st));
                   SessionStart (next_sid st);
                   SessionDraw (next_sid st) (rect_buffer_params rect);
                   ProgressGetStatus (next_sid st)])
    /\ (get_render_key goxel = 0 ->
        g_session st' = None /\ last_key st' = 0
        /\ trace st' = trace st ++ frame_setup rect).
Proof.
  intros Hnone Hlast Hfit.
  destruct (decide (get_render_key goxel = 0)) as [Hzero|Hnonzero].
  - assert (Hkey : get_render_key goxel = last_key st) by congruence.
    assert (Hvalid : session_valid st) by (unfold session_valid; now rewrite Hnone).
    pose proof (cycles_render_same goxel rect st Hkey Hvalid) as Hrun.
    rewrite Hnone in Hrun.
    eexists. split; [exact Hrun|]. split; [intros Hne; contradiction|].
    intros _. cbn [frame_world g_session last_key trace].
    rewrite app_nil_r. auto.
  - assert (Hkey : get_render_key goxel <> last_key st) by congruence.
    destruct (cycles_render_changed goxel rect st Hkey Hfit) as (sc & Hrun & _).
    cbn zeta in Hrun.
    eexists. split; [exact Hrun|]. split; [|intros Hz; contradiction].
    intros _. eexists. exists sc.
    unfold delete_events, build_events, draw_events, built_session.
    rewrite Hnone.
    cbn [frame_world g_session g_buffer_params g_session_params last_key live
         next_sid trace sid scene reset_with started].
    repeat split.
Qed.

Lemma cycles_render_first_frame_witness :
  exists st',
    cycles_render Fixture.one_voxel (0, 0, 800, 600) Fixture.world0 = Ok (tt, st')
    /\ exists new, g_session st' = Some new /\ started new = true.
Proof.
  destruct (cycles_render_first_frame Fixture.one_voxel (0, 0, 800, 600)
              Fixture.world0)
    as (st' & Hrun & Hbuild & _).
  - reflexivity.
  - reflexivity.
  - repeat constructor. vm_compute. discriminate.
  - exists st'. split; [exact Hrun|].
    destruct Hbuild as (new & sc & Hnew & _ & _ & Hstarted & _).
    + vm_compute. discriminate.
    + exists new. split; assumption.
Defined.

(** C5, as the specification words it, fails: for the empty volume and a
    camera whose matrices are all zero the render key is 0, and the first
    frame after initialisation builds nothing. *)
Lemma cycles_render_first_frame_key_zero :
  get_render_key Fixture.blank = 0
  /\ exists st',
       (cycles_init [Fixture.cpu_device]
          ≫= λ _, cycles_render Fixture.blank (0, 0, 800, 600)) Fixture.world0
       = Ok (tt, st')
       /\ g_session st' = None
       /\ trace st' = frame_setup (0, 0, 800, 600).
Proof.
  split; [vm_compute; reflexivity|].
  eexists. split; [vm_compute; reflexivity|]. split; reflexivity.
Qed.

(** C6 (as the code has it).  The render key does not depend on the
    viewport, and nothing else triggers a rebuild: whatever the first
    frame did, a second frame for the same volume and camera at any other
    rectangle keeps the session object, the stored key and the set of live
    sessions; it makes the display set-up calls and, when there is a
    session, the draw and the status query with the new buffer
    parameters.  A session built by the first frame stays reset at the
    first frame's dimensions. *)
Theorem cycles_render_resize_keeps_session
    {F mesh_t : Type} `{FloatOps F} `{VecOps F} `{VolumeOps F mesh_t}
    `{ChecksumOps}
    (goxel : goxel_t F mesh_t) (rect rect' : Z * Z * Z * Z) (st : World F) :
  session_valid st ->
  Forall (tessellation_fits (render_mesh goxel)) (scene_blocks goxel) ->
  exists st1 st2,
    cycles_render goxel rect st = Ok (tt, st1)
    /\ cycles_render goxel rect' st1 = Ok (tt, st2)
    /\ g_session st2 = g_session st1
    /\ last_key st2 = last_key st1
    /\ live st2 = live st1 /\ next_sid st2 = next_sid st1
    /\ g_buffer_params st2 = rect_buffer_params rect'
    /\ trace st2
       = trace st1 ++ frame_setup rect'
         ++ match g_session st1 with
            | Some s => [SessionDraw (sid s) (rect_buffer_params rect');
                         ProgressGetStatus (sid s)]
            | None => []
            end
    /\ (get_render_key goxel <> last_key st ->
        exists s, g_session st2 = Some s
                  /\ reset_with s
                     = Some (rect_buffer_params rect,
                             samples (g_session_params st))).
Proof.
  intros Hvalid Hfit.
  assert (Hsecond : forall st1 : World F,
            last_key st1 = get_render_key goxel -> session_valid st1 ->
            exists st2,
              cycles_render goxel rect' st1 = Ok (tt, st2)
              /\ g_session st2 = g_session st1
              /\ last_key st2 = last_key st1
              /\ live st2 = live st1 /\ next_sid st2 = next_sid st1
              /\ g_buffer_params st2 = rect_buffer_params rect'
              /\ trace st2
                 = trace st1 ++ frame_setup rect'
                   ++ match g_session st1 with
                      | Some s => [SessionDraw (sid s) (rect_buffer_params rect');
                                   ProgressGetStatus (sid s)]
                      | None => []
                      end).
  { intros st1 Hk Hv. eexists. split.
    - apply cycles_render_same; [now symmetry|exact Hv].
    - cbn [frame_world g_session g_buffer_params last_key live next_sid trace].
      unfold draw_events. repeat split. }
  destruct (decide (get_render_key goxel = last_key st)) as [Hsame|Hdiff].
  - pose proof (cycles_render_same goxel rect st Hsame Hvalid) as Hrun1.
    match type of Hrun1 with _ = Ok (_, ?w) => set (st1 := w) in * end.
    destruct (Hsecond st1) as (st2 & Hrun2 & Hrest).
    + cbn. now symmetry.
    + unfold session_valid in *. cbn. exact Hvalid.
    + exists st1, st2. split; [exact Hrun1|]. split; [exact Hrun2|].
      destruct Hrest as (Hs & Hk & Hl & Hn & Hb & Ht).
      repeat split; try assumption. intros Hne. contradiction.
  - destruct (cycles_render_changed goxel rect st Hdiff Hfit) as (sc & Hrun1 & _).
    cbn zeta in Hrun1.
    match type of Hrun1 with _ = Ok (_, ?w) => set (st1 := w) in * end.
    destruct (Hsecond st1) as (st2 & Hrun2 & Hrest).
    + reflexivity.
    + unfold session_valid. cbn. apply elem_of_cons. left. reflexivity.
    + exists st1, st2. split; [exact Hrun1|]. split; [exact Hrun2|].
      destruct Hrest as (Hs & Hk & Hl & Hn & Hb & Ht).
      repeat split; try assumption.
      intros _. rewrite Hs. eexists. split; reflexivity.
Qed.

Lemma cycles_render_resize_keeps_session_witness :
  exists st1 st2,
    cycles_render Fixture.one_voxel (0, 0, 800, 600) Fixture.world0 = Ok (tt, st1)
    /\ cycles_render Fixture.one_voxel (0, 0, 1024, 768) st1 = Ok (tt, st2)
    /\ g_session st2 = g_session st1.
Proof.
  destruct (cycles_render_resize_keeps_session Fixture.one_voxel
              (0, 0, 800, 600) (0, 0, 1024, 768) Fixture.world0)
    as (st1 & st2 & H1 & H2 & Hs & _).
  - exact I.
  - repeat constructor. vm_compute. discriminate.
  - exists st1, st2. repeat split; assumption.
Defined.

(** C6, as the specification words it, fails: after a frame at 800x600
    that built session 0, a frame at 1024x768 for the same volume and
    camera deletes and constructs nothing; session 0 is still the one
    reset at 800x600, and it is drawn with buffer parameters of
    1024x768. *)
Lemma cycles_render_resize_no_rebuild :
  exists st1 st2 s,
    (cycles_init [Fixture.cpu_device]
       ≫= λ _, cycles_render Fixture.one_voxel (0, 0, 800, 600)) Fixture.world0
    = Ok (tt, st1)
    /\ cycles_render Fixture.one_voxel (0, 0, 1024, 768) st1 = Ok (tt, st2)
    /\ g_session st1 = Some s
    /\ g_session st2 = Some s
    /\ sid s = 0%nat
    /\ reset_with s
       = Some ({| width := 800; height := 600;
                  full_width := 800; full_height := 600 |}, 20)
    /\ g_buffer_params st2
       = {| width := 1024; height := 768;
            full_width := 1024; full_height := 768 |}
    /\ trace st2
       = trace st1 ++ frame_setup (0, 0, 1024, 768)
         ++ [SessionDraw 0 {| width := 1024; height := 768;
                              full_width := 1024; full_height := 768 |};
             ProgressGetStatus 0].
Proof.
  eexists. eexists. eexists.
  split; [vm_compute; reflexivity|].
  split; [vm_compute; reflexivity|].
  split; [reflexivity|].
  repeat split.
Qed.

(** C10.  A frame with no session whose render key equals the stored key
    returns normally: it creates no session and makes no call on a
    session, neither a draw nor a status query; it makes the display
    set-up calls and records the frame's buffer parameters.  The null
    [g_session] is not dereferenced. *)
Theorem cycles_render_no_session_same_key
    {F mesh_t : Type} `{FloatOps F} `{VecOps F} `{VolumeOps F mesh_t}
    `{ChecksumOps}
    (goxel : goxel_t F mesh_t) (rect : Z * Z * Z * Z) (st : World F) :
  g_session st = None ->
  get_render_key goxel = last_key st ->
  exists st',
    cycles_render goxel rect st = Ok (tt, st')
    /\ cycles_render goxel rect st <> Fault NullDeref
    /\ g_session st' = None
    /\ g_buffer_params st' = rect_buffer_params rect
    /\ g_session_params st' = g_session_params st
    /\ last_key st' = last_key st
    /\ live st' = live st /\ next_sid st' = next_sid st
    /\ trace st' = trace st ++ frame_setup rect.
Proof.
  intros Hnone Hkey.
  assert (Hvalid : session_valid st) by (unfold session_valid; now rewrite Hnone).
  pose proof (cycles_render_same goxel rect st Hkey Hvalid) as Hrun.
  rewrite Hnone in Hrun.
  eexists. split; [exact Hrun|]. split; [rewrite Hrun; discriminate|].
  cbn [frame_world g_session g_buffer_params g_session_params last_key live
       next_sid trace].
  rewrite app_nil_r. repeat split.
Qed.

Lemma cycles_render_no_session_same_key_witness :
  exists st',
    cycles_render Fixture.blank (0, 0, 800, 600) Fixture.world0 = Ok (tt, st')
    /\ g_session st' = None
    /\ trace st' = frame_setup (0, 0, 800, 600).
Proof.
  destruct (cycles_render_no_session_same_key Fixture.blank (0, 0, 800, 600)
              Fixture.world0)
    as (st' & Hrun & _ & Hs & _ & _ & _ & _ & _ & Ht).
  - reflexivity.
  - vm_compute. reflexivity.
  - exists st'. repeat split; assumption.
Defined.

(** * Further properties *)

(** ** The block mesh at the edges of the tessellator's contract *)

Section TessellationEdges.
Context {F mesh_t : Type} `{FloatOps F} `{VolumeOps F mesh_t}.
Implicit Types (vertices : list (voxel_vertex_t F)) (ret : Ccl.Mesh F).

Lemma array_get_none {A} (a : list A) (k : nat) :
  a !! k = None -> array_get a (Z.of_nat k) = Fault OutOfBounds.
Proof.
  intros Hk. unfold array_get.
  destruct (Z.ltb_spec (Z.of_nat k) 0) as [_|_]; [reflexivity|].
  now rewrite Nat2Z.id, Hk.
Qed.

Lemma for_loop_app {S} (a b : nat) (body : Z -> S -> result S) :
  forall (i : Z) (s : S),
    for_loop (a + b) i body s
    = for_loop a i body s ≫= for_loop b (i + Z.of_nat a) body.
Proof.
  induction a as [|a IH]; intros i s.
  - cbn. now rewrite Z.add_0_r.
  - cbn [Nat.add for_loop]. destruct (body i s) as [s'|f]; cbn; [|reflexivity].
    rewrite IH. now replace (i + 1 + Z.of_nat a) with (i + Z.of_nat (Datatypes.S a)) by lia.
Qed.

(** One corner: the vertex is copied, or the read is out of bounds. *)
Lemma add_corner_cases vertices (i j : nat) ret :
  add_corner vertices (Z.of_nat i) (Z.of_nat j) ret
  = match vertices !! (4 * i + j)%nat with
    | Some v => Ok (Ccl.add_vertex ret (pos3 v))
    | None => Fault OutOfBounds
    end.
Proof.
  destruct (vertices !! (4 * i + j)%nat) as [v|] eqn:Hv.
  - now apply add_corner_ok.
  - unfold add_corner.
    replace (Z.of_nat i * 4 + Z.of_nat j) with (Z.of_nat (4 * i + j)) by lia.
    now rewrite (array_get_none _ _ Hv).
Qed.

Lemma add_quad_overrun vertices (k : nat) ret :
  (length vertices < 4 * Datatypes.S k)%nat ->
  add_quad vertices (Z.of_nat k) ret = Fault OutOfBounds.
Proof.
  intros Hlen.
  assert (Hlast : vertices !! (4 * k + 3)%nat = None)
    by (apply lookup_ge_None; lia).
  unfold add_quad. cbn [for_loop].
  pose proof (add_corner_cases vertices k 0) as Hc0.
  pose proof (add_corner_cases vertices k 1) as Hc1.
  pose proof (add_corner_cases vertices k 2) as Hc2.
  pose proof (add_corner_cases vertices k 3) as Hc3.
  change (Z.of_nat 0) with 0 in Hc0. change (Z.of_nat 1) with (0 + 1) in Hc1.
  change (Z.of_nat 2) with (0 + 1 + 1) in Hc2.
  change (Z.of_nat 3) with (0 + 1 + 1 + 1) in Hc3.
  rewrite Hc0.
  destruct (vertices !! (4 * k + 0)%nat); [|reflexivity]. cbn [mbind result_bind].
  rewrite Hc1.
  destruct (vertices !! (4 * k + 1)%nat); [|reflexivity]. cbn [mbind result_bind].
  rewrite Hc2.
  destruct (vertices !! (4 * k + 2)%nat); [|reflexivity]. cbn [mbind result_bind].
  rewrite Hc3, Hlast. reflexivity.
Qed.

Lemma quads_loop_overrun vertices (nb : Z) (n : nat) :
  (length vertices < 4 * n)%nat ->
  for_loop n 0 (add_quad vertices) (quads_mesh vertices nb 0)
  = Fault OutOfBounds.
Proof.
  intros Hlen.
  set (q := (length vertices / 4)%nat).
  assert (Hq : (4 * q <= length vertices < 4 * Datatypes.S q)%nat).
  { unfold q. pose proof (Nat.div_mod_eq (length vertices) 4).
    pose proof (Nat.mod_upper_bound (length vertices) 4). lia. }
  replace n with (q + Datatypes.S (n - Datatypes.S q))%nat by lia.
  rewrite for_loop_app, quads_loop_ok by lia.
  cbn [mbind result_bind for_loop]. rewrite Z.add_0_l.
  rewrite add_quad_overrun by lia. reflexivity.
Qed.

Lemma create_mesh_for_block_overrun (mesh : mesh_t) (block_pos : block_pos_t)
    (nb : Z) vertices :
  mesh_generate_vertices mesh block_pos 0 calloc_vertices = (nb, vertices) ->
  Z.of_nat (length vertices) < nb * 4 ->
  create_mesh_for_block mesh block_pos = Fault OutOfBounds.
Proof.
  intros Hgen Hlen. unfold create_mesh_for_block. rewrite Hgen.
  destruct (Z.eqb_spec nb 0) as [->|_]; [lia|].
  change (Ccl.reserve_mesh _ (nb * 4) (nb * 2)) with (quads_mesh vertices nb 0).
  rewrite quads_loop_overrun by lia. reflexivity.
Qed.

Lemma create_mesh_for_block_negative (mesh : mesh_t) (block_pos : block_pos_t)
    (nb : Z) vertices :
  mesh_generate_vertices mesh block_pos 0 calloc_vertices = (nb, vertices) ->
  nb < 0 ->
  create_mesh_for_block mesh block_pos = Ok (negative_block_mesh nb).
Proof.
  intros Hgen Hnb. unfold create_mesh_for_block. rewrite Hgen.
  destruct (Z.eqb_spec nb 0) as [->|_]; [lia|].
  replace (Z.to_nat nb) with 0%nat by lia.
  replace (Z.to_nat (nb * 6)) with 0%nat by lia.
  reflexivity.
Qed.

(** The three shapes of a mesh that [create_mesh_for_block] returns. *)
Lemma create_mesh_for_block_shapes (mesh : mesh_t) (block_pos : block_pos_t)
    (m : Ccl.Mesh F) :
  create_mesh_for_block mesh block_pos = Ok m ->
  m = empty_block_mesh
  \/ (exists nb, nb < 0 /\ m = negative_block_mesh nb)
  \/ (exists vertices n, (0 < n)%nat /\ (4 * n <= length vertices)%nat
                         /\ m = block_mesh vertices n).
Proof.
  intros Hm.
  destruct (mesh_generate_vertices mesh block_pos 0 calloc_vertices)
    as [nb vertices] eqn:Hgen.
  destruct (Z.lt_trichotomy nb 0) as [Hneg | [-> | Hpos]].
  - rewrite (create_mesh_for_block_negative _ _ _ _ Hgen Hneg) in Hm.
    injection Hm as <-. right. left. eauto.
  - rewrite (create_mesh_for_block_empty _ _ _ Hgen) in Hm.
    injection Hm as <-. now left.
  - destruct (Z.le_gt_cases (nb * 4) (Z.of_nat (length vertices))) as [Hfit|Hover].
    + rewrite (create_mesh_for_block_eq _ _ _ _ Hgen Hpos Hfit) in Hm.
      injection Hm as <-. right. right.
      exists vertices, (Z.to_nat nb). repeat split; lia.
    + rewrite (create_mesh_for_block_overrun _ _ _ _ Hgen) in Hm by lia.
      discriminate.
Qed.

Lemma quad_triangles_in_range vertices (n i : nat) (t : Ccl.Triangle) :
  (i < n)%nat -> (4 * n <= length vertices)%nat ->
  In t (quad_triangles i) ->
  triangle_in_range (block_mesh vertices n) t.
Proof.
  intros Hi Hlen Ht. unfold triangle_in_range.
  cbn [block_mesh Ccl.set_attributes quads_mesh Ccl.verts].
  rewrite length_fmap, length_take.
  destruct Ht as [<- | [<- | []]]; cbn [triangle Ccl.v0 Ccl.v1 Ccl.v2]; lia.
Qed.

Lemma block_mesh_wellformed vertices (n : nat) :
  (4 * n <= length vertices)%nat -> mesh_wellformed (block_mesh vertices n).
Proof.
  intros Hlen. unfold mesh_wellformed. split; [|split].
  - apply List.Forall_forall. intros t Ht.
    cbn [block_mesh Ccl.set_attributes quads_mesh Ccl.triangles] in Ht.
    apply in_flat_map in Ht as (i & Hi & Ht). apply in_seq in Hi.
    apply (quad_triangles_in_range vertices n i); [lia|exact Hlen|exact Ht].
  - cbn [block_mesh Ccl.set_attributes quads_mesh Ccl.verts Ccl.triangles].
    rewrite length_fmap, length_take, quad_triangles_length. lia.
  - cbn [block_mesh Ccl.set_attributes quads_mesh Ccl.attributes Ccl.triangles].
    repeat constructor. cbn [col_attribute Ccl.attr_data].
    rewrite length_fmap, length_seq, quad_triangles_length. lia.
Qed.

End TessellationEdges.

(** ** Frames that returned *)

Section FrameInversion.
Context {F mesh_t : Type}.
Context `{FloatOps F} `{VecOps F} `{VolumeOps F mesh_t}.
Context `{ChecksumOps} `{DeviceApi}.

Lemma rebuild_inv (goxel : goxel_t F mesh_t) (key w h : Z) (st st' : World F) :
  rebuild goxel key w h st = Ok (tt, st') ->
  exists sc,
    scene_built goxel w h (device (g_session_params st)) sc
    /\ st' = frame_world st (Some (built_session st sc)) (g_buffer_params st)
               key (next_sid st :: deleted_live st) (Datatypes.S (next_sid st))
               (delete_events st ++ build_events st w h).
Proof.
  destruct st as [gs bp sp lk lv n tr].
  unfold rebuild, deleted_live, delete_events, build_events, built_session,
    frame_world.
  destruct gs as [old|]; run_M.
  all: match goal with
       | |- context [create_scene ?g ?w1 ?h1 ?st1] =>
           destruct (create_scene g w1 h1 st1) as [[sc st2]|f] eqn:Hsc;
             [|intros; discriminate]
       end.
  all: apply create_scene_inv in Hsc as (s' & Hs' & _ & -> & Hbuilt).
  all: injection Hs' as <-.
  all: unfold frame_world; run_M.
  all: repeat (match goal with
               | |- context [decide (?a ∈ ?a :: ?l)] =>
                   destruct (decide (a ∈ a :: l)) as [_|Hn];
                     [|exfalso; apply Hn, elem_of_cons; left; reflexivity]
               end; run_M).
  all: intros [= <-]; exists sc; split; [exact Hbuilt|].
  all: f_equal; rewrite <- ?app_assoc; reflexivity.
Qed.

Lemma render_with_key_inv (goxel : goxel_t F mesh_t) (key w h : Z)
    (st st' : World F) :
  render_with_key goxel key w h st = Ok (tt, st') ->
  (key = last_key st /\ session_valid st
   /\ st' = frame_world st (g_session st) (g_buffer_params st) (last_key st)
              (live st) (next_sid st)
              (match g_session st with
               | Some s => draw_events s (g_buffer_params st)
               | None => []
               end))
  \/ (key <> last_key st
      /\ exists sc,
           scene_built goxel w h (device (g_session_params st)) sc
           /\ st' = frame_world st (Some (built_session st sc))
                      (g_buffer_params st) key
                      (next_sid st :: deleted_live st) (Datatypes.S (next_sid st))
                      (delete_events st ++ build_events st w h
                       ++ draw_events (built_session st sc) (g_buffer_params st))).
Proof.
  intros Hrun.
  destruct (decide (key = last_key st)) as [Hsame|Hdiff].
  - left. split; [exact Hsame|].
    assert (Hvalid : session_valid st).
    { unfold session_valid. destruct (g_session st) as [s|] eqn:Hs; [|exact I].
      destruct (decide (sid s ∈ live st)) as [Hin|Hout]; [exact Hin|].
      exfalso. revert Hrun. unfold render_with_key.
      destruct st as [gs bp sp lk lv n tr]. cbn in Hs, Hsame, Hout. subst gs key.
      run_M. destruct (decide (lk ≠ lk)) as [Hne|_]; [contradiction|]. run_M.
      destruct (decide (sid s ∈ lv)) as [Hin|_]; [contradiction|]. discriminate. }
    split; [exact Hvalid|].
    rewrite (render_with_key_same goxel key w h st Hsame Hvalid) in Hrun.
    now injection Hrun as <-.
  - right. split; [exact Hdiff|].
    revert Hrun. unfold render_with_key.
    unfold mbind at 1. unfold M_bind at 1, get at 1.
    destruct (decide (key ≠ last_key st)) as [_|Hn]; [|contradiction].
    unfold mbind at 1. unfold M_bind at 1.
    destruct (rebuild goxel key w h st) as [[[] st1]|f] eqn:Hre; [|discriminate].
    apply rebuild_inv in Hre as (sc & Hbuilt & ->).
    unfold frame_world, draw_events, built_session. run_M.
    repeat (destruct (decide (next_sid st ∈ next_sid st :: deleted_live st))
              as [_|Hn];
            [|exfalso; apply Hn, elem_of_cons; left; reflexivity]; run_M).
    intros [= <-]. exists sc. split; [exact Hbuilt|].
    f_equal. rewrite <- !app_assoc. reflexivity.
Qed.

(** A frame that returned either kept the session (the key was the stored
    one) or rebuilt it (the key was another). *)
Lemma cycles_render_inv (goxel : goxel_t F mesh_t) (rect : Z * Z * Z * Z)
    (st st' : World F) :
  cycles_render goxel rect st = Ok (tt, st') ->
  (get_render_key goxel = last_key st /\ session_valid st
   /\ st' = frame_world st (g_session st) (rect_buffer_params rect) (last_key st)
              (live st) (next_sid st)
              (frame_setup rect
               ++ match g_session st with
                  | Some s => draw_events s (rect_buffer_params rect)
                  | None => []
                  end))
  \/ (get_render_key goxel <> last_key st
      /\ exists sc,
           let st0 := frame_world st (g_session st) (rect_buffer_params rect)
                        (last_key st) (live st) (next_sid st) [] in
           scene_built goxel rect.1.2 rect.2 (device (g_session_params st)) sc
           /\ st' = frame_world st (Some (built_session st0 sc))
                      (rect_buffer_params rect) (get_render_key goxel)
                      (next_sid st :: deleted_live st) (Datatypes.S (next_sid st))
                      (frame_setup rect ++ delete_events st
                       ++ build_events st0 rect.1.2 rect.2
                       ++ draw_events (built_session st0 sc)
                            (rect_buffer_params rect))).
Proof.
  rewrite cycles_render_eq. intros Hrun.
  apply render_with_key_inv in Hrun
    as [(Hkey & Hvalid & ->) | (Hkey & sc & Hbuilt & ->)].
  - left. split; [exact Hkey|]. split; [exact Hvalid|].
    unfold frame_world.
    cbn [g_session g_buffer_params g_session_params last_key live next_sid trace].
    now rewrite <- app_assoc.
  - right. split; [exact Hkey|]. exists sc. cbn zeta.
    split; [exact Hbuilt|].
    unfold frame_world, built_session, build_events, deleted_live, delete_events.
    cbn [g_session g_buffer_params g_session_params last_key live next_sid trace].
    now rewrite <- app_assoc.
Qed.

Lemma cycles_init_eq (devices : list DeviceInfo) (st : World F) :
  cycles_init devices st
  = Ok (tt, {| g_session := g_session st;
               g_buffer_params := g_buffer_params st;
               g_session_params :=
                 {| progressive := true; start_resolution := 64;
                    device := select_device (type_from_string "CPU") devices
                                DeviceInfo_default;
                    samples := 20 |};
               last_key := last_key st; live := live st;
               next_sid := next_sid st; trace := trace st |}).
Proof.
  unfold cycles_init. run_M. reflexivity.
Qed.

End FrameInversion.

(** ** What every run keeps *)

Section RunInvariants.
Context {F mesh_t : Type}.
Context `{FloatOps F} `{VecOps F} `{VolumeOps F mesh_t}.
Context `{ChecksumOps} `{DeviceApi}.

Lemma controller_inv_valid (st : World F) :
  controller_inv st -> session_valid st.
Proof.
  unfold controller_inv, session_valid.
  destruct (g_session st) as [s|]; [|trivial].
  intros (-> & _). apply elem_of_cons. now left.
Qed.

Lemma controller_inv_deleted (st : World F) :
  controller_inv st -> deleted_live st = [].
Proof.
  unfold controller_inv, deleted_live.
  destruct (g_session st) as [s|]; [|trivial].
  intros (-> & _). cbn. destruct (decide (sid s ≠ sid s)); [contradiction|reflexivity].
Qed.

Lemma controller_inv_frame (goxel : goxel_t F mesh_t) (rect : Z * Z * Z * Z)
    (st st' : World F) :
  controller_inv st -> cycles_render goxel rect st = Ok (tt, st') ->
  controller_inv st'.
Proof.
  intros Hinv Hrun.
  apply cycles_render_inv in Hrun
    as [(_ & _ & ->) | (_ & sc & Hbuilt & ->)].
  - exact Hinv.
  - cbn zeta in Hbuilt. destruct Hbuilt as (_ & _ & _ & Hw & Hh & _).
    unfold controller_inv.
    cbn [frame_world g_session live built_session sid started scene reset_with
         session_params g_buffer_params g_session_params].
    rewrite (controller_inv_deleted st Hinv).
    split; [reflexivity|]. split; [reflexivity|].
    exists sc, (rect_buffer_params rect).
    destruct rect as [[[x y] w] h]. repeat split; assumption.
Qed.

Lemma reachable_controller_inv (st : World F) :
  reachable st -> controller_inv st.
Proof.
  induction 1 as [st Hs Hl _ _ | st st' devices _ IH Hinit
                  | st st' goxel rect _ IH Hrun].
  - unfold controller_inv. now rewrite Hs.
  - rewrite cycles_init_eq in Hinit. injection Hinit as <-. exact IH.
  - exact (controller_inv_frame goxel rect st st' IH Hrun).
Qed.

Lemma protocol_run_app (evs1 evs2 : list Event) :
  forall cur cur',
    protocol_run cur evs1 = Some cur' ->
    protocol_run cur (evs1 ++ evs2) = protocol_run cur' evs2.
Proof.
  induction evs1 as [|e evs1 IH]; intros cur cur' Hrun; cbn in *.
  - now injection Hrun as <-.
  - destruct (protocol_step cur e) as [c|]; [|discriminate]. now apply IH.
Qed.

Lemma protocol_frame_setup (rect : Z * Z * Z * Z) (cur : option (nat * Phase)) :
  protocol_run cur (frame_setup rect) = Some cur.
Proof. destruct rect as [[[x y] w] h]. reflexivity. Qed.

Lemma protocol_draw (s : Session F) (b : BufferParams) :
  protocol_run (Some (sid s, Running)) (draw_events s b)
  = Some (Some (sid s, Running)).
Proof. cbn. rewrite Nat.eqb_refl. cbn. now rewrite Nat.eqb_refl. Qed.

Lemma protocol_frame (goxel : goxel_t F mesh_t) (rect : Z * Z * Z * Z)
    (st st' : World F) :
  protocol_run None (trace st) = Some (current_session st) ->
  cycles_render goxel rect st = Ok (tt, st') ->
  protocol_run None (trace st') = Some (current_session st').
Proof.
  intros Hinv Hrun.
  apply cycles_render_inv in Hrun
    as [(_ & _ & ->) | (_ & sc & _ & ->)].
  - cbn [frame_world trace]. rewrite (protocol_run_app _ _ _ _ Hinv).
    rewrite (protocol_run_app _ _ _ _ (protocol_frame_setup rect _)).
    unfold current_session. cbn [frame_world g_session].
    destruct (g_session st) as [s|]; [apply protocol_draw|reflexivity].
  - cbn zeta. cbn [frame_world trace]. rewrite (protocol_run_app _ _ _ _ Hinv).
    rewrite (protocol_run_app _ _ _ _ (protocol_frame_setup rect _)).
    unfold current_session, delete_events, build_events, draw_events,
      built_session.
    cbn [frame_world g_session g_buffer_params g_session_params next_sid sid].
    destruct (g_session st) as [old|]; cbn;
      repeat (rewrite Nat.eqb_refl; cbn); reflexivity.
Qed.

(** What a frame that returned leaves in the globals. *)
Lemma cycles_render_post (goxel : goxel_t F mesh_t) (rect : Z * Z * Z * Z)
    (st st' : World F) :
  cycles_render goxel rect st = Ok (tt, st') ->
  last_key st' = get_render_key goxel
  /\ session_valid st'
  /\ g_buffer_params st' = rect_buffer_params rect
  /\ g_session_params st' = g_session_params st.
Proof.
  intros Hrun.
  apply cycles_render_inv in Hrun
    as [(Hkey & Hvalid & ->) | (_ & sc & _ & ->)].
  - cbn. repeat split; [now symmetry|exact Hvalid].
  - cbn zeta. unfold session_valid. cbn. repeat split.
    apply elem_of_cons. now left.
Qed.

End RunInvariants.

(** ** The scene, seen from its users *)

Section SceneShape.
Context {F mesh_t : Type}.
Context `{FloatOps F} `{VecOps F} `{VolumeOps F mesh_t}.

Lemma create_scene_shape (goxel : goxel_t F mesh_t) (w h : Z)
    (st st' : World F) (sc : Scene F) :
  create_scene goxel w h st = Ok (sc, st') ->
  shaders sc = [shader_tag_update create_cube_shader;
                shader_tag_update create_light_shader]
  /\ exists l, lights sc = [l]
               /\ light_type l = LIGHT_DISTANT
               /\ light_shader l = "lightShader"%string
               /\ light_dir l = get_light_dir goxel.
Proof.
  unfold create_scene. intros Hrun.
  unfold mbind, M_bind in Hrun.
  destruct (deref_session st) as [[s st1]|f] eqn:Hd; [|discriminate].
  apply deref_session_inv in Hd as (Hs & Hlive & ->).
  unfold emit, lift in Hrun.
  match type of Hrun with
  | context [scene_add_blocks ?g ?sh ?b ?sc0] =>
      destruct (scene_add_blocks g sh b sc0) as [sc1|f] eqn:Hblocks;
        [|discriminate]
  end.
  apply scene_add_blocks_inv in Hblocks as (objs & -> & Hall).
  destruct (get_light_dir goxel) as [[lx ly] lz].
  cbn in Hrun. injection Hrun as <- <-.
  split; [reflexivity|]. eexists. repeat split.
Qed.

Lemma block_mesh_used_shaders (gmesh : mesh_t) (block_pos : block_pos_t)
    (m : Ccl.Mesh F) :
  create_mesh_for_block gmesh block_pos = Ok m ->
  Ccl.used_shaders m = []
  /\ Forall (fun a => Ccl.attr_name a = "Col"%string) (Ccl.attributes m).
Proof.
  intros Hm.
  apply create_mesh_for_block_shapes in Hm
    as [-> | [(nb & _ & ->) | (vertices & n & _ & _ & ->)]];
    split; try reflexivity; repeat constructor.
Qed.

End SceneShape.

(** X1.  Every mesh that [create_mesh_for_block] returns is well formed:
    each triangle refers to vertices that the mesh has, there are four
    vertices for every two triangles, and every attribute has exactly one
    entry per triangle corner, so that the colour loop writes inside the
    attribute's data. *)
Theorem create_mesh_for_block_wellformed
    {F mesh_t : Type} `{FloatOps F} `{VolumeOps F mesh_t}
    (mesh : mesh_t) (block_pos : block_pos_t) (m : Ccl.Mesh F) :
  create_mesh_for_block mesh block_pos = Ok m ->
  mesh_wellformed m.
Proof.
  intros Hm.
  apply create_mesh_for_block_shapes in Hm
    as [-> | [(nb & _ & ->) | (vertices & n & _ & Hlen & ->)]].
  - repeat split; constructor.
  - repeat split; repeat constructor.
  - now apply block_mesh_wellformed.
Qed.

Lemma create_mesh_for_block_wellformed_witness :
  exists m,
    create_mesh_for_block (render_mesh Fixture.one_voxel) (0, 0, 0) = Ok m
    /\ mesh_wellformed m.
Proof.
  eexists. split; [vm_compute; reflexivity|].
  apply (create_mesh_for_block_wellformed (render_mesh Fixture.one_voxel) (0, 0, 0)).
  vm_compute. reflexivity.
Defined.

(** X2.  [create_mesh_for_block] returns a mesh exactly when the quads
    that the tessellator reports lie within the buffer it hands back;
    when they do not, the first read beyond the buffer is an out-of-bounds
    access. *)
Theorem create_mesh_for_block_fits_or_overruns
    {F mesh_t : Type} `{FloatOps F} `{VolumeOps F mesh_t}
    (mesh : mesh_t) (block_pos : block_pos_t) :
  (tessellation_fits mesh block_pos
   /\ exists m, create_mesh_for_block mesh block_pos = Ok m)
  \/ (~ tessellation_fits mesh block_pos
      /\ create_mesh_for_block mesh block_pos = Fault OutOfBounds).
Proof.
  unfold tessellation_fits.
  destruct (mesh_generate_vertices mesh block_pos 0 calloc_vertices)
    as [nb vertices] eqn:Hgen.
  destruct (Z.le_gt_cases (nb * 4) (Z.of_nat (length vertices))) as [Hfit|Hover].
  - left. split; [exact Hfit|].
    apply create_mesh_for_block_total. unfold tessellation_fits.
    now rewrite Hgen.
  - right. split; [lia|].
    apply (create_mesh_for_block_overrun mesh block_pos nb vertices Hgen). lia.
Qed.

(** A tessellator that reports two quads and hands back six vertices. *)
Example create_mesh_for_block_overrun_example :
  @create_mesh_for_block Z unit Fixture.float_Z FixtureEdge.overrun_ops tt (0, 0, 0)
  = Fault OutOfBounds.
Proof. vm_compute. reflexivity. Qed.

(** X4.  In a scene that [create_scene] returns, nothing refers to a
    shader that the scene does not hold: the scene has the two shaders
    "cubeShader" and "lightShader", every object's mesh is in the list of
    meshes at the object's position and uses exactly "cubeShader", and the
    scene's one light is a distant light that uses "lightShader" and
    points along [get_light_dir]. *)
Theorem create_scene_shader_references
    {F mesh_t : Type} `{FloatOps F} `{VecOps F} `{VolumeOps F mesh_t}
    (goxel : goxel_t F mesh_t) (w h : Z) (st st' : World F) (sc : Scene F) :
  create_scene goxel w h st = Ok (sc, st') ->
  shader_name <$> shaders sc = ["cubeShader"; "lightShader"]%string
  /\ meshes sc = obj_mesh <$> objects sc
  /\ Forall (fun o => Ccl.used_shaders (obj_mesh o) = ["cubeShader"]%string)
            (objects sc)
  /\ exists l, lights sc = [l]
               /\ light_type l = LIGHT_DISTANT
               /\ light_shader l = "lightShader"%string
               /\ light_dir l = get_light_dir goxel.
Proof.
  intros Hrun.
  destruct (create_scene_shape goxel w h st st' sc Hrun) as (Hsh & Hlight).
  destruct (create_scene_inv goxel w h st st' sc Hrun)
    as (s & _ & _ & _ & Hmeshes & Hall & _).
  split; [now rewrite Hsh|]. split; [exact Hmeshes|]. split; [|exact Hlight].
  apply List.Forall_forall. intros o Ho.
  apply list_elem_of_In, list_elem_of_lookup in Ho as [k Hk].
  destruct (Forall2_lookup_r _ _ _ _ _ Hall Hk) as (bp & _ & m & Hm & ->).
  cbn [block_object obj_mesh Ccl.push_used_shader Ccl.used_shaders].
  now rewrite (proj1 (block_mesh_used_shaders _ _ _ Hm)).
Qed.

Lemma create_scene_shader_references_witness :
  exists sc st',
    create_scene Fixture.one_voxel 800 600 Fixture.world1 = Ok (sc, st')
    /\ shader_name <$> shaders sc = ["cubeShader"; "lightShader"]%string.
Proof.
  eexists. eexists. split; [vm_compute; reflexivity|].
  refine (proj1 (create_scene_shader_references Fixture.one_voxel 800 600
                   Fixture.world1 _ _ _)).
  vm_compute. reflexivity.
Defined.

(** X5.  [create_scene] reads the device through [g_session]: called
    while [g_session] is null, or points to a deleted session, it
    dereferences an invalid pointer, whatever the volume and the
    dimensions. *)
Theorem create_scene_needs_session
    {F mesh_t : Type} `{FloatOps F} `{VecOps F} `{VolumeOps F mesh_t}
    (goxel : goxel_t F mesh_t) (w h : Z) (st : World F) :
  (forall s, g_session st = Some s -> sid s ∉ live st) ->
  create_scene goxel w h st = Fault NullDeref.
Proof.
  intros Hdead.
  assert (Hd : deref_session st = Fault NullDeref).
  { unfold deref_session, get, mbind, M_bind, crash.
    destruct (g_session st) as [s|] eqn:Hs; [|reflexivity].
    destruct (decide (sid s ∈ live st)) as [Hin|_]; [|reflexivity].
    now destruct (Hdead s eq_refl). }
  unfold create_scene, mbind, M_bind. now rewrite Hd.
Qed.

Lemma create_scene_needs_session_witness :
  create_scene Fixture.one_voxel 800 600 Fixture.world0 = Fault NullDeref.
Proof.
  apply (create_scene_needs_session Fixture.one_voxel 800 600 Fixture.world0).
  intros s Hs. vm_compute in Hs. discriminate.
Defined.

(** X6.  The colours written on the meshes are the ones their shader
    reads: in a scene that [create_scene] returns, every attribute of
    every object's mesh has a name that an attribute node of a shader used
    by that mesh, and held by the scene, reads. *)
Theorem create_scene_colors_are_read
    {F mesh_t : Type} `{FloatOps F} `{VecOps F} `{VolumeOps F mesh_t}
    (goxel : goxel_t F mesh_t) (w h : Z) (st st' : World F) (sc : Scene F) :
  create_scene goxel w h st = Ok (sc, st') ->
  Forall (fun o =>
            Forall (fun a =>
                      exists sh, In sh (shaders sc)
                                 /\ In (shader_name sh) (Ccl.used_shaders (obj_mesh o))
                                 /\ In (Ccl.attr_name a) (attribute_names (graph sh)))
                   (Ccl.attributes (obj_mesh o)))
         (objects sc).
Proof.
  intros Hrun.
  destruct (create_scene_shape goxel w h st st' sc Hrun) as (Hsh & _).
  destruct (create_scene_inv goxel w h st st' sc Hrun)
    as (s & _ & _ & _ & _ & Hall & _).
  apply List.Forall_forall. intros o Ho.
  apply list_elem_of_In, list_elem_of_lookup in Ho as [k Hk].
  destruct (Forall2_lookup_r _ _ _ _ _ Hall Hk) as (bp & _ & m & Hm & ->).
  destruct (block_mesh_used_shaders _ _ _ Hm) as (Hused & Hcol).
  cbn [block_object obj_mesh Ccl.push_used_shader Ccl.used_shaders Ccl.attributes].
  rewrite Hused. apply List.Forall_forall. intros a Ha.
  rewrite List.Forall_forall in Hcol.
  exists (shader_tag_update create_cube_shader). rewrite Hsh, (Hcol a Ha).
  split; [now left|]. split; now left.
Qed.

Lemma create_scene_colors_are_read_witness :
  exists sc st',
    create_scene Fixture.one_voxel 800 600 Fixture.world1 = Ok (sc, st')
    /\ Forall (fun o =>
                 Forall (fun a =>
                           exists sh, In sh (shaders sc)
                                      /\ In (shader_name sh)
                                            (Ccl.used_shaders (obj_mesh o))
                                      /\ In (Ccl.attr_name a)
                                            (attribute_names (graph sh)))
                        (Ccl.attributes (obj_mesh o)))
              (objects sc).
Proof.
  eexists. eexists. split; [vm_compute; reflexivity|].
  refine (create_scene_colors_are_read Fixture.one_voxel 800 600
            Fixture.world1 _ _ _).
  vm_compute. reflexivity.
Defined.

(** X7.  Initialising again changes nothing, and of two initialisations
    the later one decides: [cycles_init] with the same devices leaves the
    state it produced as it is, and [cycles_init] with other devices gives
    what it gives without the first.  After it the session parameters are
    progressive, with start resolution 64 and 20 samples. *)
Theorem cycles_init_idempotent
    {F : Type} `{DeviceApi} (devices devices' : list DeviceInfo) (st : World F) :
  exists st1 st2,
    cycles_init devices st = Ok (tt, st1)
    /\ initialised st1
    /\ cycles_init devices st1 = Ok (tt, st1)
    /\ cycles_init devices' st1 = Ok (tt, st2)
    /\ cycles_init devices' st = Ok (tt, st2).
Proof.
  eexists. eexists. split; [apply cycles_init_eq|].
  split; [repeat split|].
  rewrite !cycles_init_eq. repeat split.
Qed.

(** X8.  In every state that a run reaches, the session in [g_session]
    is the only session alive and is fully set up (it has its scene, was
    reset with the buffer parameters the scene was made for and with its
    own sample count, and was started); while [g_session] is null no
    session is alive.  No run leaks a session or leaves a dangling
    [g_session]. *)
Theorem reachable_one_live_session
    {F mesh_t : Type} `{FloatOps F} `{VecOps F} `{VolumeOps F mesh_t}
    `{ChecksumOps} `{DeviceApi} (st : World F) :
  reachable (mesh_t := mesh_t) st ->
  controller_inv st /\ session_valid st.
Proof.
  intros Hreach.
  pose proof (reachable_controller_inv st Hreach) as Hinv.
  split; [exact Hinv|now apply controller_inv_valid].
Qed.

(** Builds the proof that the state after [cycles_init] and a first frame
    of the one-voxel volume is reached. *)
Ltac reach_one_voxel :=
  eapply (reach_frame _ _ Fixture.one_voxel (0, 0, 800, 600));
  [ eapply (reach_init Fixture.world0 _ [Fixture.cpu_device]);
    [ apply reach_start; reflexivity | vm_compute; reflexivity ]
  | vm_compute; reflexivity ].

Lemma reachable_one_live_session_witness :
  exists st,
    (cycles_init [Fixture.cpu_device]
       ≫= λ _, cycles_render Fixture.one_voxel (0, 0, 800, 600)) Fixture.world0
    = Ok (tt, st)
    /\ controller_inv st /\ session_valid st.
Proof.
  eexists. split; [vm_compute; reflexivity|].
  apply (reachable_one_live_session (mesh_t := Fixture.volume)).
  reach_one_voxel.
Defined.

(** X9.  In every state that a run reaches, the calls made so far obey
    the life cycle of a session: a session is constructed only when none
    is alive, then its scene is made, then it is reset, then started, and
    only then drawn and queried; a session is deleted only once, after it
    was started, and no call is made on it afterwards.  The session the
    calls leave alive and running is the one in [g_session]. *)
Theorem reachable_calls_in_order
    {F mesh_t : Type} `{FloatOps F} `{VecOps F} `{VolumeOps F mesh_t}
    `{ChecksumOps} `{DeviceApi} (st : World F) :
  reachable (mesh_t := mesh_t) st ->
  protocol_run None (trace st) = Some (current_session st).
Proof.
  induction 1 as [st Hs _ Ht _ | st st' devices _ IH Hinit
                  | st st' goxel rect _ IH Hrun].
  - unfold current_session. now rewrite Hs, Ht.
  - rewrite cycles_init_eq in Hinit. injection Hinit as <-. exact IH.
  - exact (protocol_frame goxel rect st st' IH Hrun).
Qed.

Lemma reachable_calls_in_order_witness :
  exists st,
    (cycles_init [Fixture.cpu_device]
       ≫= λ _, cycles_render Fixture.one_voxel (0, 0, 800, 600)) Fixture.world0
    = Ok (tt, st)
    /\ protocol_run None (trace st) = Some (current_session st).
Proof.
  eexists. split; [vm_compute; reflexivity|].
  apply (reachable_calls_in_order (mesh_t := Fixture.volume)).
  reach_one_voxel.
Defined.

(** X10.  In no state that a run reaches does a frame dereference a null
    or deleted session or index outside an array: provided the
    tessellator's quads fit its buffer for the blocks of the volume, the
    frame returns, and the state it leaves is reached again. *)
Theorem reachable_frame_returns
    {F mesh_t : Type} `{FloatOps F} `{VecOps F} `{VolumeOps F mesh_t}
    `{ChecksumOps} `{DeviceApi}
    (goxel : goxel_t F mesh_t) (rect : Z * Z * Z * Z) (st : World F) :
  reachable (mesh_t := mesh_t) st ->
  Forall (tessellation_fits (render_mesh goxel)) (scene_blocks goxel) ->
  exists st',
    cycles_render goxel rect st = Ok (tt, st')
    /\ reachable (mesh_t := mesh_t) st'.
Proof.
  intros Hreach Hfit.
  pose proof (controller_inv_valid st (reachable_controller_inv st Hreach)) as Hvalid.
  destruct (cycles_render_total goxel rect st Hvalid Hfit) as (st' & Hrun & _).
  exists st'. split; [exact Hrun|].
  exact (reach_frame st st' goxel rect Hreach Hrun).
Qed.

Lemma reachable_frame_returns_witness :
  exists st',
    cycles_render Fixture.one_voxel (0, 0, 800, 600) Fixture.world0 = Ok (tt, st')
    /\ reachable (mesh_t := Fixture.volume) st'.
Proof.
  apply (reachable_frame_returns Fixture.one_voxel (0, 0, 800, 600) Fixture.world0).
  - apply reach_start; reflexivity.
  - repeat constructor. vm_compute. discriminate.
Defined.

(** X11.  The render key reads the volume's content hash and the view and
    projection matrices, and nothing else of the editor's state: after a
    frame, a frame for a state that differs in the light's angles or in
    the camera's offset, rotation and distance only rebuilds nothing.  The
    session and its scene, whose light and camera matrix were computed
    from the earlier values, stay. *)
Theorem cycles_render_ignores_light_and_orbit
    {F mesh_t : Type} `{FloatOps F} `{VecOps F} `{VolumeOps F mesh_t}
    `{ChecksumOps}
    (goxel goxel' : goxel_t F mesh_t) (rect rect' : Z * Z * Z * Z)
    (st st1 : World F) :
  render_mesh goxel' = render_mesh goxel ->
  view_mat (camera goxel') = view_mat (camera goxel) ->
  proj_mat (camera goxel') = proj_mat (camera goxel) ->
  cycles_render goxel rect st = Ok (tt, st1) ->
  get_render_key goxel' = get_render_key goxel
  /\ exists st2,
       cycles_render goxel' rect' st1 = Ok (tt, st2)
       /\ g_session st2 = g_session st1
       /\ last_key st2 = last_key st1
       /\ live st2 = live st1
       /\ trace st2
          = trace st1 ++ frame_setup rect'
            ++ match g_session st1 with
               | Some s => [SessionDraw (sid s) (rect_buffer_params rect');
                            ProgressGetStatus (sid s)]
               | None => []
               end.
Proof.
  intros Hmesh Hview Hproj Hrun.
  assert (Hkey : get_render_key goxel' = get_render_key goxel)
    by (unfold get_render_key; now rewrite Hmesh, Hview, Hproj).
  split; [exact Hkey|].
  destruct (cycles_render_post goxel rect st st1 Hrun) as (Hlast & Hvalid & _).
  eexists. split.
  - apply cycles_render_same; [congruence|exact Hvalid].
  - cbn [frame_world g_session last_key live trace]. unfold draw_events.
    repeat split.
Qed.

Lemma cycles_render_ignores_light_and_orbit_witness :
  exists st1,
    cycles_render Fixture.one_voxel (0, 0, 800, 600) Fixture.world0 = Ok (tt, st1)
    /\ camera_matrix FixtureEdge.one_voxel_relit <> camera_matrix Fixture.one_voxel
    /\ exists st2,
         cycles_render FixtureEdge.one_voxel_relit (0, 0, 800, 600) st1 = Ok (tt, st2)
         /\ g_session st2 = g_session st1.
Proof.
  eexists. split; [vm_compute; reflexivity|].
  split; [vm_compute; discriminate|].
  edestruct (cycles_render_ignores_light_and_orbit Fixture.one_voxel
               FixtureEdge.one_voxel_relit (0, 0, 800, 600) (0, 0, 800, 600)
               Fixture.world0)
    as (_ & st2 & Hrun2 & Hs & _).
  - reflexivity.
  - reflexivity.
  - reflexivity.
  - vm_compute. reflexivity.
  - exists st2. split; [exact Hrun2|exact Hs].
Defined.

(** X12.  Every frame that returns records the frame's buffer parameters
    and the frame's render key and leaves the session parameters alone.
    Its calls are the display set-up, then the calls of a rebuild if there
    was one, none of which is a draw or a status query, and last exactly
    one draw and one status query on the session now in [g_session], with
    the frame's buffer parameters - or no such call when [g_session] is
    null. *)
Theorem cycles_render_frame_effect
    {F mesh_t : Type} `{FloatOps F} `{VecOps F} `{VolumeOps F mesh_t}
    `{ChecksumOps}
    (goxel : goxel_t F mesh_t) (rect : Z * Z * Z * Z) (st st' : World F) :
  cycles_render goxel rect st = Ok (tt, st') ->
  g_buffer_params st' = rect_buffer_params rect
  /\ last_key st' = get_render_key goxel
  /\ g_session_params st' = g_session_params st
  /\ exists mid,
       trace st'
       = trace st ++ frame_setup rect ++ mid
         ++ match g_session st' with
            | Some s => [SessionDraw (sid s) (rect_buffer_params rect);
                         ProgressGetStatus (sid s)]
            | None => []
            end
       /\ Forall (fun e => is_draw_call e = false) mid
       /\ (get_render_key goxel = last_key st -> mid = []).
Proof.
  intros Hrun.
  destruct (cycles_render_post goxel rect st st' Hrun) as (Hlast & _ & Hbp & Hsp).
  split; [exact Hbp|]. split; [exact Hlast|]. split; [exact Hsp|].
  apply cycles_render_inv in Hrun
    as [(Hkey & _ & ->) | (Hkey & sc & _ & ->)].
  - exists []. cbn [frame_world g_session trace app]. unfold draw_events.
    repeat split. constructor.
  - cbn zeta. eexists (delete_events st ++ build_events _ rect.1.2 rect.2).
    cbn [frame_world g_session trace]. unfold draw_events.
    split; [now rewrite <- !app_assoc|]. split; [|intros Hk; contradiction].
    unfold delete_events, build_events.
    destruct (g_session st); repeat constructor.
Qed.

Lemma cycles_render_frame_effect_witness :
  exists st',
    cycles_render Fixture.one_voxel (0, 0, 800, 600) Fixture.world0 = Ok (tt, st')
    /\ g_buffer_params st' = rect_buffer_params (0, 0, 800, 600)
    /\ last_key st' = get_render_key Fixture.one_voxel.
Proof.
  eexists. split; [vm_compute; reflexivity|].
  edestruct (cycles_render_frame_effect Fixture.one_voxel (0, 0, 800, 600)
               Fixture.world0) as (Hbp & Hkey & _).
  - vm_compute. reflexivity.
  - split; [exact Hbp|exact Hkey].
Defined.

(** X13.  In every state that a run reaches, the scene of the session in
    [g_session] is a scene that [create_scene] built from a state of the
    editor whose render key is the stored key: the stored key always
    belongs to the scene on display.  While there is no session the
    stored key is still 0. *)
Theorem reachable_scene_of_stored_key
    {F mesh_t : Type} `{FloatOps F} `{VecOps F} `{VolumeOps F mesh_t}
    `{ChecksumOps} `{DeviceApi} (st : World F) :
  reachable (mesh_t := mesh_t) st ->
  scene_of_stored_key (mesh_t := mesh_t) st.
Proof.
  induction 1 as [st Hs _ _ Hk | st st' devices _ IH Hinit
                  | st st' goxel rect _ IH Hrun].
  - unfold scene_of_stored_key. now rewrite Hs.
  - rewrite cycles_init_eq in Hinit. injection Hinit as <-. exact IH.
  - apply cycles_render_inv in Hrun
      as [(_ & _ & ->) | (_ & sc & Hbuilt & ->)].
    + exact IH.
    + cbn zeta in Hbuilt. unfold scene_of_stored_key.
      cbn [frame_world g_session last_key built_session scene session_device
           g_session_params].
      exists goxel, rect.1.2, rect.2, sc.
      split; [reflexivity|]. split; [exact Hbuilt|reflexivity].
Qed.

Lemma reachable_scene_of_stored_key_witness :
  exists st,
    (cycles_init [Fixture.cpu_device]
       ≫= λ _, cycles_render Fixture.one_voxel (0, 0, 800, 600)) Fixture.world0
    = Ok (tt, st)
    /\ scene_of_stored_key (mesh_t := Fixture.volume) st.
Proof.
  eexists. split; [vm_compute; reflexivity|].
  apply (reachable_scene_of_stored_key (mesh_t := Fixture.volume)).
  reach_one_voxel.
Defined.

(** ** Frames after the initialisation *)

Section AfterInit.
Context {F mesh_t : Type}.
Context `{FloatOps F} `{VecOps F} `{VolumeOps F mesh_t}.
Context `{ChecksumOps} `{DeviceApi}.

Lemma initialised_run_reachable (st : World F) :
  initialised_run (mesh_t := mesh_t) st -> reachable (mesh_t := mesh_t) st.
Proof.
  induction 1 as [st st' devices Hreach Hinit | st st' goxel rect _ IH Hrun].
  - exact (reach_init st st' devices Hreach Hinit).
  - exact (reach_frame st st' goxel rect IH Hrun).
Qed.

(** The session parameters that [cycles_init] sets are there in every
    later frame: no frame writes them. *)
Lemma initialised_run_initialised (st : World F) :
  initialised_run (mesh_t := mesh_t) st -> initialised st.
Proof.
  induction 1 as [st st' devices _ Hinit | st st' goxel rect _ IH Hrun].
  - rewrite cycles_init_eq in Hinit. injection Hinit as <-. repeat split.
  - destruct (cycles_render_post goxel rect st st' Hrun) as (_ & _ & _ & Hsp).
    unfold initialised. rewrite Hsp. exact IH.
Qed.

End AfterInit.

(** C4.  A frame whose render key differs from the recorded one, with a
    session in place, in a run in which [cycles_init] has been called:
    after the display set-up the calls are, in this order, the deletion
    of the current session, the construction of the new session from the
    session parameters, the construction of the scene at the viewport's
    width and height, the reset with the frame's buffer parameters and 20
    samples, the start, and then the draw and the status query on the new
    session.  The deleted session is no longer alive when the new one is
    constructed, and the new session is the only one alive afterwards; it
    carries the parameters that [cycles_init] fixed (progressive, start
    resolution 64, 20 samples), and the new key is recorded. *)
Theorem cycles_render_changed_key_rebuilds
    {F mesh_t : Type} `{FloatOps F} `{VecOps F} `{VolumeOps F mesh_t}
    `{ChecksumOps} `{DeviceApi}
    (goxel : goxel_t F mesh_t) (rect : Z * Z * Z * Z) (st : World F)
    (old : Session F) :
  initialised_run (mesh_t := mesh_t) st ->
  g_session st = Some old ->
  get_render_key goxel <> last_key st ->
  Forall (tessellation_fits (render_mesh goxel)) (scene_blocks goxel) ->
  exists sc st' new,
    cycles_render goxel rect st = Ok (tt, st')
    /\ trace st'
       = trace st ++ frame_setup rect
         ++ [SessionDelete (sid old);
             SessionNew (next_sid st) (g_session_params st);
             SceneNew rect.1.2 rect.2;
             SessionReset (next_sid st) (rect_buffer_params rect) 20;
             SessionStart (next_sid st);
             SessionDraw (next_sid st) (rect_buffer_params rect);
             ProgressGetStatus (next_sid st)]
    /\ live st' = (next_sid st :: filter (λ i, i ≠ sid old) (live st))
    /\ (sid old ∉ filter (λ i, i ≠ sid old) (live st))
    /\ live st = [sid old]
    /\ live st' = [next_sid st]
    /\ g_session st' = Some new
    /\ sid new = next_sid st
    /\ scene new = Some sc
    /\ cam_width (scene_camera sc) = rect.1.2
    /\ cam_height (scene_camera sc) = rect.2
    /\ reset_with new = Some (rect_buffer_params rect, 20)
    /\ started new = true
    /\ session_params new = g_session_params st
    /\ samples (session_params new) = 20
    /\ start_resolution (session_params new) = 64
    /\ progressive (session_params new) = true
    /\ last_key st' = get_render_key goxel.
Proof.
  intros Hrun0 Hold Hkey Hfit.
  destruct (initialised_run_initialised st Hrun0) as (Hprog & Hres & Hsamples).
  pose proof (reachable_controller_inv st (initialised_run_reachable st Hrun0))
    as Hinv.
  pose proof (controller_inv_deleted st Hinv) as Hdel.
  unfold controller_inv in Hinv. rewrite Hold in Hinv. destruct Hinv as (Hlive & _).
  unfold deleted_live in Hdel. rewrite Hold in Hdel.
  destruct (cycles_render_changed goxel rect st Hkey Hfit) as (sc & Hrun & Hbuilt).
  cbn zeta in Hrun.
  destruct Hbuilt as (_ & _ & _ & Hw & Hh & _).
  exists sc. eexists. eexists. split; [exact Hrun|].
  unfold delete_events, deleted_live, build_events, draw_events, built_session.
  rewrite Hold.
  cbn [frame_world g_session g_buffer_params g_session_params last_key live
       next_sid trace sid scene reset_with started session_params].
  rewrite Hsamples.
  repeat split; try assumption.
  - intros Hin. apply list_elem_of_filter in Hin as [Hne _]. now apply Hne.
  - now rewrite Hdel.
Qed.

Lemma cycles_render_changed_key_rebuilds_witness :
  exists st,
    (cycles_init [Fixture.cpu_device]
       ≫= λ _, cycles_render Fixture.one_voxel (0, 0, 800, 600)) Fixture.world0
    = Ok (tt, st)
    /\ exists sc st' new,
         cycles_render Fixture.hollow (0, 0, 1024, 768) st = Ok (tt, st')
         /\ g_session st' = Some new
         /\ sid new = 1%nat
         /\ scene new = Some sc
         /\ live st' = [1%nat]
         /\ samples (session_params new) = 20
         /\ start_resolution (session_params new) = 64.
Proof.
  eexists. split; [vm_compute; reflexivity|].
  match goal with
  | |- context [cycles_render Fixture.hollow _ ?s] =>
      edestruct (cycles_render_changed_key_rebuilds (mesh_t := Fixture.volume)
                   Fixture.hollow (0, 0, 1024, 768) s)
        as (sc & st' & new & Hrun & _ & _ & _ & _ & Hlive & Hnew & Hsid
            & Hscene & _ & _ & _ & _ & _ & Hsamples & Hres & _)
  end.
  - eapply (run_frame _ _ Fixture.one_voxel (0, 0, 800, 600));
      [ eapply (run_init Fixture.world0 _ [Fixture.cpu_device]);
        [ apply reach_start; reflexivity | vm_compute; reflexivity ]
      | vm_compute; reflexivity ].
  - reflexivity.
  - vm_compute. discriminate.
  - repeat constructor. vm_compute. discriminate.
  - exists sc, st', new. repeat split; assumption.
Defined.
